(** * Commodity price ETL: reconciliation, coercion and deduplication

    A shallow embedding of [etl/commodity_prices_clean.py]: the functions
    [_load_raw_dataframe], [_coalesce_columns], [transform], [load] and [run]
    and the schema [CommodityPriceSchema], over a small model of the pandas
    and pandera operations they call.

    Conventions of the model.
    - A cell is a [Scalar]; [NA] stands for every value pandas' [isna]
      reports (None, NaN, NaT).  A float is carried by the rational it
      denotes.
    - A [DataFrame] is its columns, in order, over the default range index;
      a frame without columns has no rows.
    - A timestamp is a number of nanoseconds since the epoch (datetime64[ns]),
      time-zone naive.
    - The clock read by [datetime.utcnow()] is an explicit argument. *)

From Stdlib Require Import List String Ascii ZArith QArith Bool Arith Lia.
From Stdlib Require Import Permutation Sorted DecimalString.
Import ListNotations.
Local Open Scope string_scope.
Local Open Scope list_scope.

(** ** Cells, series and frames *)

Module Pandas.

Inductive Scalar : Type :=
| NA
| Str (s : string)
| Int (z : Z)
| Flt (q : Q).

Definition Series := list Scalar.

(** A frame: column label and column, in column order. *)
Definition DataFrame := list (string * Series).

Definition isna (v : Scalar) : bool :=
  match v with NA => true | _ => false end.

Definition notna (v : Scalar) : bool := negb (isna v).

(** The numeric value of a cell, when it is a number. *)
Definition num_of (v : Scalar) : option Q :=
  match v with
  | Int z => Some (inject_Z z)
  | Flt q => Some q
  | _ => None
  end.

(** Equality of cells as [duplicated] sees it: nulls are equal to each other,
    numbers are compared by value. *)
Definition scalar_eqb (a b : Scalar) : bool :=
  match a, b with
  | NA, NA => true
  | Str s, Str t => String.eqb s t
  | _, _ =>
      match num_of a, num_of b with
      | Some p, Some q => Qeq_bool p q
      | _, _ => false
      end
  end.

Definition opt_eqb {A} (eqb : A -> A -> bool) (a b : option A) : bool :=
  match a, b with
  | None, None => true
  | Some x, Some y => eqb x y
  | _, _ => false
  end.

Definition columns (df : DataFrame) : list string := map fst df.

(** [len(df)]: the length of the index. *)
Definition len (df : DataFrame) : nat :=
  match df with
  | [] => 0
  | (_, s) :: _ => List.length s
  end.

(** [df.empty]: some axis has length zero. *)
Definition empty (df : DataFrame) : bool :=
  match df with
  | [] => true
  | _ => Nat.eqb (len df) 0
  end.

(** [df[column]] guarded by [column in df]. *)
Fixpoint lookup (column : string) (df : DataFrame) : option Series :=
  match df with
  | [] => None
  | (c, s) :: rest => if String.eqb column c then Some s else lookup column rest
  end.


(** [df[column] = series]: replace the column in place, or append it. *)
Fixpoint setitem (column : string) (series : Series) (df : DataFrame) : DataFrame :=
  match df with
  | [] => [(column, series)]
  | (c, s) :: rest =>
      if String.eqb column c then (c, series) :: rest
      else (c, s) :: setitem column series rest
  end.

(** The value a column assignment gives row [i]: a series is aligned on the
    index (a missing label gives a null), a scalar is broadcast. *)
Definition cell {D} (dflt : D) (i : nat) (c : list D + D) : D :=
  match c with
  | inl s => nth i s dflt
  | inr v => v
  end.

(** [subset.notna().all(axis=1)] for [dropna(subset=...)]: the rows kept are
    those for which every listed field is present. *)
Definition dropna {A} (present : list (A -> bool)) (rows : list A) : list A :=
  filter (fun r => forallb (fun p => p r) present) rows.

(** [drop_duplicates(subset=..., keep="first")]: scan in order, keep a row when
    its key has not been seen. *)
Fixpoint drop_duplicates_from {A K} (eqb : K -> K -> bool) (key : A -> K)
    (seen : list K) (rows : list A) : list A :=
  match rows with
  | [] => []
  | r :: rest =>
      if existsb (eqb (key r)) seen
      then drop_duplicates_from eqb key seen rest
      else r :: drop_duplicates_from eqb key (key r :: seen) rest
  end.

Definition drop_duplicates {A K} (eqb : K -> K -> bool) (key : A -> K)
    (rows : list A) : list A :=
  drop_duplicates_from eqb key [] rows.

(** Two rows differ in their key; no two rows of a frame have the same key. *)
Definition differ {A K} (eqb : K -> K -> bool) (key : A -> K) (a b : A) : Prop :=
  eqb (key a) (key b) = false.

Definition distinct_keys {A K} (eqb : K -> K -> bool) (key : A -> K)
    (l : list A) : Prop :=
  ForallOrdPairs (differ eqb key) l.

(** [reset_index(drop=True)]: forget the index labels. *)
Definition reset_index {A} (rows : list (nat * A)) : list A := map snd rows.

(** Order of a descending sort on a datetime column with [na_position="last"]:
    [ts_geb a b] holds when [a] may stand before [b]. *)
Definition ts_geb (a b : option Z) : bool :=
  match b with
  | None => true
  | Some y => match a with Some x => Z.leb y x | None => false end
  end.

(** [a] may stand before [b] in a frame sorted on [key], latest first. *)
Definition before {A} (key : A -> option Z) (a b : A) : Prop :=
  ts_geb (key a) (key b) = true.

(** [str.strip()] *)
Definition is_space (c : ascii) : bool :=
  let n := nat_of_ascii c in
  Nat.eqb n 32 || (Nat.leb 9 n && Nat.leb n 13).

Fixpoint lstrip (l : list ascii) : list ascii :=
  match l with
  | c :: rest => if is_space c then lstrip rest else l
  | [] => []
  end.

Definition strip (s : string) : string :=
  string_of_list_ascii
    (rev (lstrip (rev (lstrip (list_ascii_of_string s))))).

(** ** The library routines taken as given

    The parsers and the sort are pandas' own code.  They are taken through
    their documented contract: with [errors="coerce"] a parser returns a
    column of the same length in which what it cannot read is null;
    [sort_values] with the default [kind] returns the rows in the requested
    order, and is not promised to be stable.  [Library] names the routines,
    [Contract] states what is assumed of them. *)

Class Library : Type := {
  (** [Series.astype(str)], on one cell *)
  astype_str : Scalar -> string;
  (** [pd.to_datetime(series, errors="coerce")] *)
  to_datetime : Series -> list (option Z);
  (** [pd.to_numeric(series, errors="coerce")] *)
  to_numeric : Series -> list (option Q);
  (** the cast of one cell to [int] that pandera applies *)
  astype_int : Scalar -> option Z;
  (** [sort_values(column, ascending=False)] on a datetime column *)
  sort_values : forall {A : Type}, (A -> option Z) -> list A -> list A
}.

Class Contract (L : Library) : Prop := {
  (** the text of a null is "nan" or "None" *)
  astype_str_na : astype_str NA = "nan" \/ astype_str NA = "None";
  to_datetime_length : forall s, List.length (to_datetime s) = List.length s;
  (** neither text is a date *)
  to_datetime_nat : forall s i t,
      nth i s NA = Str t -> t = "nan" \/ t = "None" ->
      nth i (to_datetime s) None = None;
  to_numeric_length : forall s, List.length (to_numeric s) = List.length s;
  (** a null stays a null *)
  to_numeric_na : forall s i,
      nth i s NA = NA -> nth i (to_numeric s) None = None;
  astype_int_int : forall z, astype_int (Int z) = Some z;
  astype_int_na : astype_int NA = None;
  sort_values_perm : forall A (key : A -> option Z) l,
      Permutation (sort_values key l) l;
  sort_values_sorted : forall A (key : A -> option Z) l,
      StronglySorted (before key) (sort_values key l)
}.

(** ** Reference routines

    Executable routines that meet the contract, used to run the pipeline on
    concrete data.  The parsers read the formats of the bundled sample: a date
    is a four-digit year or an ISO [YYYY-MM-DD] day, a number is a plain
    decimal numeral. *)

Definition digit_of (c : ascii) : option Z :=
  let n := nat_of_ascii c in
  if Nat.leb 48 n && Nat.leb n 57 then Some (Z.of_nat (n - 48)) else None.

Fixpoint number_of (acc : Z) (l : list ascii) : option Z :=
  match l with
  | [] => Some acc
  | c :: rest =>
      match digit_of c with
      | Some d => number_of (10 * acc + d)%Z rest
      | None => None
      end
  end.

Definition digits (l : list ascii) : option Z :=
  match l with
  | [] => None
  | _ => number_of 0%Z l
  end.

Definition is_leap (y : Z) : bool :=
  ((y mod 4 =? 0) && negb (y mod 100 =? 0) || (y mod 400 =? 0))%Z.

Definition days_in_month (y m : Z) : Z :=
  if (m =? 2)%Z then (if is_leap y then 29 else 28)%Z
  else if ((m =? 4) || (m =? 6) || (m =? 9) || (m =? 11))%Z then 30%Z
  else 31%Z.

(** Days since 1970-01-01 of a day of the proleptic Gregorian calendar. *)
Definition days_from_civil (y m d : Z) : Z :=
  let y' := (if m <=? 2 then y - 1 else y)%Z in
  let era := (y' / 400)%Z in
  let yoe := (y' - era * 400)%Z in
  let mp := (if 2 <? m then m - 3 else m + 9)%Z in
  let doy := ((153 * mp + 2) / 5 + d - 1)%Z in
  let doe := (yoe * 365 + yoe / 4 - yoe / 100 + doy)%Z in
  (era * 146097 + doe - 719468)%Z.

Definition ns_per_day : Z := (86400 * 1000000000)%Z.

(** Midnight of a day, when the day exists and datetime64[ns] can hold it. *)
Definition timestamp_of_date (y m d : Z) : option Z :=
  if ((1678 <=? y) && (y <=? 2261) && (1 <=? m) && (m <=? 12)
      && (1 <=? d) && (d <=? days_in_month y m))%Z
  then Some (days_from_civil y m d * ns_per_day)%Z
  else None.

Definition parse_date (s : string) : option Z :=
  match list_ascii_of_string s with
  | [y1; y2; y3; y4] =>
      match digits [y1; y2; y3; y4] with
      | Some y => timestamp_of_date y 1 1
      | None => None
      end
  | [y1; y2; y3; y4; s1; m1; m2; s2; d1; d2] =>
      if Ascii.eqb s1 "-" && Ascii.eqb s2 "-" then
        match digits [y1; y2; y3; y4], digits [m1; m2], digits [d1; d2] with
        | Some y, Some m, Some d => timestamp_of_date y m d
        | _, _, _ => None
        end
      else None
  | _ => None
  end.

Fixpoint split_point (l : list ascii) : list ascii * option (list ascii) :=
  match l with
  | [] => ([], None)
  | c :: rest =>
      if Ascii.eqb c "." then ([], Some rest)
      else let (a, b) := split_point rest in (c :: a, b)
  end.

Definition parse_unsigned (l : list ascii) : option Q :=
  match split_point l with
  | (ip, None) => option_map inject_Z (digits ip)
  | (ip, Some fp) =>
      match ip, fp with
      | [], [] => None
      | _, _ =>
          match number_of 0%Z ip, number_of 0%Z fp with
          | Some a, Some b =>
              let scale := (10 ^ Z.of_nat (List.length fp))%Z in
              Some (Qred (Qmake (a * scale + b) (Z.to_pos scale)))
          | _, _ => None
          end
      end
  end.

Definition parse_number (s : string) : option Q :=
  match list_ascii_of_string s with
  | c :: rest =>
      if Ascii.eqb c "-" then option_map Qopp (parse_unsigned rest)
      else if Ascii.eqb c "+" then parse_unsigned rest
      else parse_unsigned (c :: rest)
  | [] => None
  end.

Definition str_of_Z (z : Z) : string := NilZero.string_of_int (Z.to_int z).

Fixpoint fraction_digits (fuel : nat) (r d : Z) : string :=
  match fuel with
  | O => EmptyString
  | S fuel' =>
      if (r =? 0)%Z then EmptyString
      else String (ascii_of_nat (48 + Z.to_nat ((10 * r) / d)))
                  (fraction_digits fuel' ((10 * r) mod d)%Z d)
  end.

(** The decimal expansion of a float, as [repr] prints a short decimal. *)
Definition str_of_Q (q : Q) : string :=
  let n := Qnum q in
  let d := Zpos (Qden q) in
  let sign := if (n <? 0)%Z then "-" else "" in
  let frac := fraction_digits 17 (Z.abs n mod d)%Z d in
  sign ++ str_of_Z (Z.abs n / d)%Z ++ "."
       ++ (match frac with EmptyString => "0" | _ => frac end).

Definition ref_astype_str (v : Scalar) : string :=
  match v with
  | NA => "nan"
  | Str s => s
  | Int z => str_of_Z z
  | Flt q => str_of_Q q
  end.

(** A string is parsed; an integer is a number of nanoseconds. *)
Definition ref_to_datetime (s : Series) : list (option Z) :=
  map (fun v => match v with
                | Str t => parse_date t
                | Int z => Some z
                | _ => None
                end) s.

Definition ref_to_numeric (s : Series) : list (option Q) :=
  map (fun v => match v with
                | Str t => parse_number t
                | Int z => Some (inject_Z z)
                | Flt q => Some q
                | NA => None
                end) s.

Definition ref_astype_int (v : Scalar) : option Z :=
  match v with
  | Int z => Some z
  | Flt q => Some (Z.quot (Qnum q) (Zpos (Qden q)))
  | Str t =>
      match list_ascii_of_string t with
      | c :: rest =>
          if Ascii.eqb c "-" then option_map Z.opp (digits rest)
          else digits (c :: rest)
      | [] => None
      end
  | NA => None
  end.

(** Insertion sort, descending, stable: a row is put before the first row it
    may stand before. *)
Fixpoint insert_desc {A} (key : A -> option Z) (x : A) (l : list A) : list A :=
  match l with
  | [] => [x]
  | y :: rest =>
      if ts_geb (key x) (key y) then x :: l
      else y :: insert_desc key x rest
  end.

Definition stable_sort {A} (key : A -> option Z) (l : list A) : list A :=
  fold_right (insert_desc key) [] l.

(** A sort that meets the same contract and is not stable: among rows of equal
    time the later one comes first. *)
Definition reversing_sort {A} (key : A -> option Z) (l : list A) : list A :=
  stable_sort key (rev l).

(** The reference library: the parsers of the sample formats and the stable
    sort. *)
Definition reference : Library := {|
  astype_str := ref_astype_str;
  to_datetime := ref_to_datetime;
  to_numeric := ref_to_numeric;
  astype_int := ref_astype_int;
  sort_values := @stable_sort
|}.

(** The same parsers with the sort that is not stable. *)
Definition reversing : Library := {|
  astype_str := ref_astype_str;
  to_datetime := ref_to_datetime;
  to_numeric := ref_to_numeric;
  astype_int := ref_astype_int;
  sort_values := @reversing_sort
|}.

End Pandas.

(** ** etl/commodity_prices_clean.py *)

Module Clean.
Import Pandas.

(** What a call can raise. *)
Inductive failure : Type :=
| column_not_in_dataframe (column : string)
| not_nullable (column : string) (row : nat)
| not_coercible (column : string) (row : nat).

Inductive exn : Type :=
| KeyError (column : string)
| SchemaErrors (failures : list failure).

Inductive result (A : Type) : Type :=
| Ok (a : A)
| Raise (e : exn).
Arguments Ok {A} a.
Arguments Raise {A} e.

Definition bind {A B} (r : result A) (k : A -> result B) : result B :=
  match r with
  | Ok a => k a
  | Raise e => Raise e
  end.

Notation "x <- r ;; k" := (bind r (fun x => k))
  (at level 61, r at next level, right associativity).

(** A row of the frame [transform] builds, with the type each column has
    after coercion. *)
Record Row : Type := {
  price_date : option Z;
  commodity_id : Scalar;
  commodity_name : Scalar;
  price_type : Scalar;
  price_currency : Scalar;
  price_value : option Q;
  source_name : Scalar;
  ingested_at : option Z;
  raw_id : Scalar
}.

(** A row with its index label. *)
Definition Indexed : Type := nat * Row.

(** The frame [transform] returns: its column labels and its rows. *)
Record Table : Type := {
  labels : list string;
  rows : list Row
}.

(** An empty frame, as [transform] hands it back: its labels and no row. *)
Definition unchanged (df : DataFrame) : Table :=
  {| labels := columns df; rows := [] |}.

Definition table_empty (t : Table) : bool :=
  match labels t, rows t with
  | [], _ => true
  | _, [] => true
  | _, _ => false
  end.

(** *** CommodityPriceSchema *)

Inductive dtype : Type := Timestamp | str | float | int.

Record Field : Type := {
  name : string;
  annotation : dtype;
  nullable : bool
}.

Definition CommodityPriceSchema : list Field :=
  [ {| name := "price_date"; annotation := Timestamp; nullable := false |};
    {| name := "commodity_id"; annotation := str; nullable := true |};
    {| name := "commodity_name"; annotation := str; nullable := true |};
    {| name := "price_type"; annotation := str; nullable := true |};
    {| name := "price_currency"; annotation := str; nullable := true |};
    {| name := "price_value"; annotation := float; nullable := false |};
    {| name := "source_name"; annotation := str; nullable := true |};
    {| name := "ingested_at"; annotation := Timestamp; nullable := true |};
    {| name := "raw_id"; annotation := int; nullable := false |} ].

(** A cell of a canonical row, by column label. *)
Inductive Cell : Type :=
| datetime64 (t : option Z)
| float64 (x : option Q)
| object (v : Scalar).

Definition getattr (column : string) (r : Row) : Cell :=
  if String.eqb column "price_date" then datetime64 (price_date r)
  else if String.eqb column "commodity_id" then object (commodity_id r)
  else if String.eqb column "commodity_name" then object (commodity_name r)
  else if String.eqb column "price_type" then object (price_type r)
  else if String.eqb column "price_currency" then object (price_currency r)
  else if String.eqb column "price_value" then float64 (price_value r)
  else if String.eqb column "source_name" then object (source_name r)
  else if String.eqb column "ingested_at" then datetime64 (ingested_at r)
  else if String.eqb column "raw_id" then object (raw_id r)
  else object NA.

Definition cell_isna (c : Cell) : bool :=
  match c with
  | datetime64 None | float64 None | object NA => true
  | _ => false
  end.

Section WithLibrary.
Context {L : Library}.

(** The validation is pandera's, as its documentation describes it: every
    field of the schema must be a column of the frame, a column is cast to its
    annotated type ([Config.coerce = True]), and a field that is not nullable
    holds no null.

    The cast: the
    columns [transform] builds already have their type, except the object
    columns: any value casts to [str], and [raw_id] casts to [int] where
    [astype_int] succeeds. *)
Definition coercible (t : dtype) (c : Cell) : bool :=
  match t, c with
  | Timestamp, datetime64 _ => true
  | float, float64 _ => true
  | str, object _ => true
  | int, object v => match astype_int v with Some _ => true | None => false end
  | _, _ => false
  end.

Definition check_cell (f : Field) (i : nat) (c : Cell) : list failure :=
  if cell_isna c then
    (if nullable f then [] else [not_nullable (name f) i])
  else if coercible (annotation f) c then []
  else [not_coercible (name f) i].

Definition check_field (t : Table) (f : Field) : list failure :=
  if existsb (String.eqb (name f)) (labels t) then
    List.concat (map (fun ir => check_cell f (fst ir) (getattr (name f) (snd ir)))
                (combine (seq 0 (List.length (rows t))) (rows t)))
  else [column_not_in_dataframe (name f)].

(** [CommodityPriceSchema.validate(df, lazy=True)]: every failure is
    collected, and raised together when there is one. *)
Definition validate (t : Table) : result Table :=
  match List.concat (map (check_field t) CommodityPriceSchema) with
  | [] => Ok t
  | failures => Raise (SchemaErrors failures)
  end.

(** *** _load_raw_dataframe *)

(** A row of [raw_data.faostat_prices]: its id and its decoded payload, a flat
    JSON object. *)
Definition RawRecord : Type := Scalar * list (string * Scalar).

Definition first_seen (keys : list string) : list string :=
  fold_left (fun acc k => if existsb (String.eqb k) acc then acc else acc ++ [k])
            keys [].

Definition payload_get (k : string) (payload : list (string * Scalar)) : Scalar :=
  match find (fun kv => String.eqb k (fst kv)) payload with
  | Some kv => snd kv
  | None => NA
  end.

(** [pd.json_normalize]: one column per key met, a null where a record lacks
    the key. *)
Definition json_normalize (payloads : list (list (string * Scalar))) : DataFrame :=
  map (fun k => (k, map (payload_get k) payloads))
      (first_seen (List.concat (map (map fst) payloads))).

Definition _load_raw_dataframe (raw_df : list RawRecord) : DataFrame :=
  match raw_df with
  | [] => []
  | _ =>
      let payloads := map snd raw_df in
      let normalized := json_normalize payloads in
      setitem "raw_id" (map fst raw_df) normalized
  end.

(** *** _coalesce_columns *)

Fixpoint _coalesce_columns {D : Type} (df : DataFrame) (candidates : list string)
    (default : option D) : Series + D :=
  match candidates with
  | [] =>
      match default with
      | Some d => inr d
      | None => inl (repeat NA (len df))
      end
  | column :: rest =>
      match lookup column df with
      | Some series =>
          if negb (forallb isna series) then inl series
          else _coalesce_columns df rest default
      | None => _coalesce_columns df rest default
      end
  end.

(** A call without default returns a series. *)
Definition series_of (c : Series + Empty_set) : Series :=
  match c with
  | inl s => s
  | inr e => match e with end
  end.

(** *** transform *)

Definition BusinessKey : Type := option Z * Scalar * Scalar * Scalar.

(** [subset=["price_date", "commodity_id", "price_type", "source_name"]] *)
Definition business_key (r : Row) : BusinessKey :=
  (price_date r, commodity_id r, price_type r, source_name r).

Definition key_eqb (a b : BusinessKey) : bool :=
  match a, b with
  | (d1, c1, t1, s1), (d2, c2, t2, s2) =>
      opt_eqb Z.eqb d1 d2 && scalar_eqb c1 c2 && scalar_eqb t1 t2
      && scalar_eqb s1 s2
  end.

Definition canonical_columns : list string :=
  ["price_date"; "commodity_id"; "commodity_name"; "price_type";
   "price_currency"; "price_value"; "source_name"; "ingested_at"; "raw_id"].

(** Lines 68-101: the columns of [output], reconciled and coerced.  The index
    of [output] is that of the first column assigned; the later columns are
    aligned on it. *)
Definition coerce (utcnow : Z) (df : DataFrame) : result (list Indexed) :=
  let date_series :=
    series_of (_coalesce_columns df ["price_date"; "timeperiod"; "time"; "year"] None) in
  let date_series := map (fun v => Str (strip (astype_str v))) date_series in
  let o_price_date := to_datetime date_series in
  let o_commodity_id : Series + Scalar :=
    _coalesce_columns df ["commodity_id"; "item_code"; "Item Code (CPC)"] None in
  let o_commodity_name : Series + Scalar :=
    _coalesce_columns df ["commodity_name"; "item"; "Item"] None in
  let o_price_type : Series + Scalar :=
    _coalesce_columns df ["price_type"; "element"; "Element"] None in
  let o_price_currency :=
    _coalesce_columns df ["price_currency"; "unit"; "Unit"] (Some (Str "USD")) in
  let price_values := series_of (_coalesce_columns df ["price_value"; "Value"] None) in
  let o_price_value := to_numeric price_values in
  let o_source_name :=
    _coalesce_columns df ["source_name"; "Source"] (Some (Str "FAOSTAT")) in
  let ingested_series := _coalesce_columns df ["ingested_at"] (Some utcnow) in
  let o_ingested_at : list (option Z) + option Z :=
    match ingested_series with
    | inl s => inl (to_datetime s)
    | inr now => inr (Some now)
    end in
  match lookup "raw_id" df with
  | None => Raise (KeyError "raw_id")
  | Some o_raw_id =>
      Ok (map (fun i =>
                 (i, {| price_date := nth i o_price_date None;
                        commodity_id := cell NA i o_commodity_id;
                        commodity_name := cell NA i o_commodity_name;
                        price_type := cell NA i o_price_type;
                        price_currency := cell NA i o_price_currency;
                        price_value := nth i o_price_value None;
                        source_name := cell NA i o_source_name;
                        ingested_at := cell None i o_ingested_at;
                        raw_id := nth i o_raw_id NA |}))
              (seq 0 (List.length o_price_date)))
  end.

Definition has_price_date (r : Indexed) : bool :=
  match price_date (snd r) with Some _ => true | None => false end.

Definition has_price_value (r : Indexed) : bool :=
  match price_value (snd r) with Some _ => true | None => false end.

(** Line 104: [dropna(subset=["price_date", "price_value"])].  The casts of
    lines 105-107 leave the model's values as they are. *)
Definition drop_required (output : list Indexed) : list Indexed :=
  dropna [has_price_date; has_price_value] output.

(** Lines 110-115: sort by [ingested_at], latest first, and keep the first row
    of each business key. *)
Definition deduplicate (output : list Indexed) : list Indexed :=
  drop_duplicates key_eqb (fun r => business_key (snd r))
    (sort_values (fun r => ingested_at (snd r)) output).

Definition transform (utcnow : Z) (df : DataFrame) : result Table :=
  if empty df then Ok (unchanged df)
  else
    output <- coerce utcnow df ;;
    let output := drop_required output in
    let output := reset_index (deduplicate output) in
    Ok {| labels := canonical_columns; rows := output |}.

(** *** load, run *)

(** The number of rows [load] writes and returns. *)
Definition load (t : Table) : nat :=
  if table_empty t then 0 else List.length (rows t).

Definition run (utcnow : Z) (raw_df : list RawRecord) : result nat :=
  let raw_df := _load_raw_dataframe raw_df in
  transformed <- transform utcnow raw_df ;;
  _ <- validate transformed ;;
  Ok (load transformed).

End WithLibrary.

End Clean.

(** ** The vocabulary of the specification *)

Module Spec.
Import Pandas Clean.

Definition row_key (r : Indexed) : BusinessKey := business_key (snd r).



Definition unique_keys (l : list Indexed) : Prop :=
  distinct_keys key_eqb row_key l.


(** The columns [transform] reads the dates and the prices from. *)
Definition date_column (df : DataFrame) : Series :=
  series_of (_coalesce_columns df ["price_date"; "timeperiod"; "time"; "year"] None).

Definition price_column (df : DataFrame) : Series :=
  series_of (_coalesce_columns df ["price_value"; "Value"] None).

(** The required fields of a row are present. *)
Definition required_present (r : Row) : Prop :=
  price_date r <> None /\ price_value r <> None.

Definition has_integer_id (r : Row) : Prop := exists z, raw_id r = Int z.


(** The index labels of the rows that are left before [reset_index]. *)
Definition surviving {L : Library} (output : list Indexed) : list nat :=
  map fst (deduplicate (drop_required output)).

(** The selection rule of the Field Reconciler in the words of the
    specification: the first alias, in priority order, that is a column of the
    frame and holds a value in some row; its column when there is one,
    otherwise the default, otherwise nulls. *)
Definition qualifies (df : DataFrame) (alias : string) : bool :=
  match lookup alias df with
  | Some series => existsb notna series
  | None => false
  end.

Definition first_qualifying (df : DataFrame) (aliases : list string) : option string :=
  find (qualifies df) aliases.

Definition reconcile {D : Type} (df : DataFrame) (aliases : list string)
    (default : option D) : Series + D :=
  match first_qualifying df aliases with
  | Some alias =>
      match lookup alias df with
      | Some series => inl series
      | None => inl []
      end
  | None =>
      match default with
      | Some d => inr d
      | None => inl (repeat NA (len df))
      end
  end.

(** Every column of the frame has [n] rows. *)
Definition columns_of_length (n : nat) (df : DataFrame) : Prop :=
  Forall (fun c => List.length (snd c) = n) df.

End Spec.

(** ** Sample data *)

Module Samples.
Import Pandas Clean.

(** Midnight of 2021-01-01, 2021-02-01 and 2021-03-01. *)
Definition d2021_01_01 : Z := 1609459200000000000%Z.
Definition d2021_02_01 : Z := 1612137600000000000%Z.
Definition d2021_03_01 : Z := 1614556800000000000%Z.

Definition wholesale (i : nat) (observed_at : Z) : Indexed :=
  (i, {| price_date := Some d2021_01_01;
         commodity_id := Str "CID1";
         commodity_name := NA;
         price_type := Str "wholesale";
         price_currency := Str "USD";
         price_value := Some (inject_Z 10);
         source_name := Str "FAOSTAT";
         ingested_at := Some observed_at;
         raw_id := Int (Z.of_nat i) |}).

(** Two raw records of one business key, observed on 2021-02-01 and on
    2021-03-01. *)
Definition observed_twice : list RawRecord :=
  [ (Int 1, [("price_date", Str "2021-01-01"); ("commodity_id", Str "CID1");
             ("price_type", Str "wholesale"); ("source_name", Str "FAOSTAT");
             ("price_value", Str "10"); ("ingested_at", Str "2021-02-01")]);
    (Int 2, [("price_date", Str "2021-01-01"); ("commodity_id", Str "CID1");
             ("price_type", Str "wholesale"); ("source_name", Str "FAOSTAT");
             ("price_value", Str "11"); ("ingested_at", Str "2021-03-01")]) ].

(** Two raw records of one business key without [ingested_at]: both get the
    time of the run. *)
Definition observed_together : list RawRecord :=
  [ (Int 1, [("year", Str "2021"); ("Value", Str "1")]);
    (Int 2, [("year", Str "2021"); ("Value", Str "2")]) ].

(** A record of the historical vintage. *)
Definition historical : list RawRecord :=
  [ (Int 1, [("Value", Str "12.50"); ("Item Code (CPC)", Str "0711")]) ].

Definition one_bad_date : list RawRecord :=
  [ (Int 1, [("year", Str "2021"); ("Value", Str "1")]);
    (Int 2, [("year", Str "not a date"); ("Value", Str "2")]) ].



(** The first alias holds the price of the first record only, the second
    alias that of the second record only. *)
Definition split_aliases : DataFrame :=
  [ ("year", [Str "2021"; Str "2021"]);
    ("price_value", [Str "5"; NA]);
    ("Value", [NA; Str "7"]);
    ("raw_id", [Int 1; Int 2]) ].

End Samples.

(** A record of the raw table has the key [k] in its payload. *)
Definition has_key (k : string) (r : Clean.RawRecord) : bool :=
  existsb (fun kv => String.eqb k (fst kv)) (snd r).

(** ** etl/commodity_prices_clean.py: the statements of [load] *)

Module Warehouse.
Import Pandas Clean.

(** [Timestamp.date()]: the day of a timestamp, in days since the epoch. *)
Definition date (ns : Z) : Z := (ns / ns_per_day)%Z.

(** One element of [records]: a row as the insert binds it, [price_date]
    being its day ([df.assign(price_date=df["price_date"].dt.date)]). *)
Record Parameters : Type := {
  price_date : option Z;
  commodity_id : Scalar;
  commodity_name : Scalar;
  price_type : Scalar;
  price_currency : Scalar;
  price_value : option Q;
  source_name : Scalar;
  ingested_at : option Z;
  raw_id : Scalar
}.

Definition to_dict (r : Row) : Parameters :=
  {| price_date := option_map date (Clean.price_date r);
     commodity_id := Clean.commodity_id r;
     commodity_name := Clean.commodity_name r;
     price_type := Clean.price_type r;
     price_currency := Clean.price_currency r;
     price_value := Clean.price_value r;
     source_name := Clean.source_name r;
     ingested_at := Clean.ingested_at r;
     raw_id := Clean.raw_id r |}.

(** The statements [load] executes, in one transaction. *)
Inductive Statement : Type :=
| create_table_if_not_exists
| truncate_table
| insert_into_commodity_prices (records : list Parameters)
| upsert_dataset_metadata (name : string) (rows : nat) (notes : string).

(** Lines 122-201 of [load], as the statements it sends: none for an empty
    frame. *)
Definition load_statements (df : Table) : list Statement :=
  if table_empty df then []
  else
    let records := map to_dict (rows df) in
    [ create_table_if_not_exists;
      truncate_table;
      insert_into_commodity_prices records;
      upsert_dataset_metadata "commodity_prices" (List.length (rows df))
        "Generated by etl.commodity_prices_clean" ].

(** [run], with what it sends to the database beside what [load] returns. *)
Definition run_statements {L : Library} (utcnow : Z) (raw_df : list RawRecord)
    : result (list Statement) :=
  let raw_df := _load_raw_dataframe raw_df in
  transformed <- transform utcnow raw_df ;;
  _ <- validate transformed ;;
  Ok (load_statements transformed).

End Warehouse.

(** ** pipelines/commodity_prices.py *)

Module Ingest.
Import Pandas.

(** The end of a call that can raise: its value, or the text of the
    exception ([str(exc)]). *)
Inductive outcome (A : Type) : Type :=
| Done (a : A)
| Failed (message : string).
Arguments Done {A} a.
Arguments Failed {A} message.

Definition FAOSTAT_DEFAULT_ENDPOINT : string :=
  "https://fenixservices.fao.org/faostat/api/v1/en/Prices/TM_PC/data".

(** A decoded JSON record with scalar values. *)
Definition JsonRecord : Type := list (string * Scalar).

(** What the pipeline reaches outside itself. *)
Record World : Type := {
  (** [requests.get(url, params=params)], [raise_for_status()] and
      [response.json()]: the entry "data" of the payload, when it has one *)
  requests_get : string -> list (string * string) -> outcome (option (list JsonRecord));
  (** [pd.read_csv(path)] *)
  read_csv : string -> outcome DataFrame;
  (** [os.getenv(name)] *)
  getenv : string -> option string;
  (** the n-th reading of [datetime.utcnow()] *)
  utcnow : nat -> Z
}.

(** [range(year_start, year_end + 1)] *)
Definition year_range (year_start year_end : Z) : list Z :=
  map (fun k => (year_start + Z.of_nat k)%Z)
      (seq 0 (Z.to_nat (year_end + 1 - year_start))).

Definition fetch_faostat_data (w : World) (dataset_url : string)
    (area_code item_code element_code : string) (year_start year_end : Z)
    : outcome DataFrame :=
  let params :=
    [ ("area_code", area_code);
      ("item_code", item_code);
      ("element_code", element_code);
      ("time_year",
       String.concat "," (map str_of_Z (year_range year_start year_end))) ] in
  match requests_get w dataset_url params with
  | Failed message => Failed message
  | Done payload =>
      let data := match payload with Some data => data | None => [] end in
      match data with
      | [] => Failed "FAOSTAT response contained no data rows."
      | _ =>
          let df := Clean.json_normalize data in
          Done (setitem "source_name"
                  (repeat (Str "FAOSTAT") (List.length data)) df)
      end
  end.

Definition load_sample_csv (w : World) (path : string) : outcome DataFrame :=
  read_csv w path.

(** A cell of a frame about to be stored: a cell as read, or a datetime. *)
Inductive Value : Type :=
| plain (v : Scalar)
| datetime (ns : Z).

Definition Frame : Type := list (string * list Value).

Definition frame_len (df : Frame) : nat :=
  match df with
  | [] => 0
  | (_, s) :: _ => List.length s
  end.

Definition column_mapping : list (string * string) :=
  [ ("time", "price_year");
    ("timeperiod", "price_year");
    ("value", "price_value");
    ("item_code", "commodity_id") ].

Definition renamed (mapping : list (string * string)) (column : string) : string :=
  match find (fun m => String.eqb column (fst m)) mapping with
  | Some m => snd m
  | None => column
  end.

(** [df.rename(columns=mapping)] *)
Definition rename (mapping : list (string * string)) (df : DataFrame) : DataFrame :=
  map (fun c => (renamed mapping (fst c), snd c)) df.

(** [df[column] = value] for a scalar: every column of that label is set,
    or the column is appended. *)
Definition assign (column : string) (value : Value) (df : Frame) : Frame :=
  let series := repeat value (frame_len df) in
  if existsb (String.eqb column) (map fst df)
  then map (fun c => if String.eqb column (fst c) then (fst c, series) else c) df
  else df ++ [(column, series)].

(** The cells of a frame as read, as cells to store. *)
Definition lifted (df : DataFrame) : Frame :=
  map (fun c => (fst c, map plain (snd c))) df.

Definition normalize_dataframe (now : Z) (df : DataFrame) : outcome Frame :=
  let df := rename column_mapping df in
  match find (fun required => negb (existsb (String.eqb required) (columns df)))
             ["price_value"] with
  | Some required =>
      Failed ("Required column '" ++ required ++ "' missing")
  | None =>
      Done (assign "ingested_at" (datetime now) (lifted df))
  end.

(** What [json.loads] reads back from what [to_json] wrote for a cell: a
    datetime is written as milliseconds since the epoch, a float with
    [double_precision] decimals. *)
Definition json_value (double_precision : Q -> Q) (v : Value) : Scalar :=
  match v with
  | plain (Flt q) => Flt (double_precision q)
  | plain v => v
  | datetime ns => Int (ns / 1000000)
  end.

Fixpoint is_unique (labels : list string) : bool :=
  match labels with
  | [] => true
  | c :: rest => negb (existsb (String.eqb c) rest) && is_unique rest
  end.

(** [row.to_json()] of one row of [iterrows()], decoded: the orient of a
    series is "index", which wants unique labels. *)
Definition to_json (double_precision : Q -> Q) (labels : list string)
    (row : list Value) : outcome JsonRecord :=
  if is_unique labels
  then Done (combine labels (map (json_value double_precision) row))
  else Failed "Series index must be unique for orient='index'".

Definition iterrows (df : Frame) : list (list Value) :=
  map (fun i => map (fun c => nth i (snd c) (plain NA)) df)
      (seq 0 (frame_len df)).

Fixpoint sequence {A} (l : list (outcome A)) : outcome (list A) :=
  match l with
  | [] => Done []
  | Done a :: rest =>
      match sequence rest with
      | Done l' => Done (a :: l')
      | Failed message => Failed message
      end
  | Failed message :: _ => Failed message
  end.

Record IngestionRun : Type := {
  source_name : string;
  run_started_at : Z;
  run_finished_at : Z;
  status : string;
  rows_ingested : nat;
  error_message : option string
}.

(** The tables of the schema [raw_data]: the payloads of [faostat_prices], in
    insertion order (the ids are the database's), and [ingestion_runs].  The
    database is taken to be reachable and to accept the statements it is
    sent; a payload is kept as written (a column of type jsonb would keep its
    keys and values, not their order). *)
Record Database : Type := {
  faostat_prices : list JsonRecord;
  ingestion_runs : list IngestionRun
}.

Section Store.
(** [double_precision]: the rounding of a float by [to_json].
    [execute_without_parameters]: what the driver does when the list of
    parameters of the insert is empty. *)
Variable double_precision : Q -> Q.
Variable execute_without_parameters : outcome unit.

Definition persist_raw (df : Frame) (source_name : string) (db : Database)
    : outcome nat * Database :=
  let rows := frame_len df in
  match sequence (map (to_json double_precision (map fst df)) (iterrows df)) with
  | Failed message => (Failed message, db)
  | Done [] =>
      match execute_without_parameters with
      | Done _ => (Done rows, db)
      | Failed message => (Failed message, db)
      end
  | Done payloads =>
      (Done rows,
       {| faostat_prices := faostat_prices db ++ payloads;
          ingestion_runs := ingestion_runs db |})
  end.

Definition record_run (started finished : Z) (status : string) (rows : nat)
    (message : option string) (db : Database) : Database :=
  {| faostat_prices := faostat_prices db;
     ingestion_runs :=
       ingestion_runs db
       ++ [ {| source_name := "faostat_prices";
               run_started_at := started;
               run_finished_at := finished;
               status := status;
               rows_ingested := rows;
               error_message := message |} ] |}.

Definition sample_path : string := "data/samples/faostat_prices_sample.csv".

Definition ingest (w : World) (use_sample : bool) (db : Database)
    : outcome unit * Database :=
  let first :=
    if use_sample then load_sample_csv w sample_path
    else
      let endpoint :=
        match getenv w "FAOSTAT_ENDPOINT" with
        | Some e => e
        | None => FAOSTAT_DEFAULT_ENDPOINT
        end in
      fetch_faostat_data w endpoint "41" "2514" "5532" 2020 2023 in
  let frame :=
    match first with
    | Done df => Done df
    | Failed _ => load_sample_csv w sample_path
    end in
  match frame with
  | Failed message => (Failed message, db)
  | Done df =>
      match normalize_dataframe (utcnow w 0) df with
      | Failed message => (Failed message, db)
      | Done df =>
          match persist_raw df "faostat_prices" db with
          | (Done rows, db) =>
              (Done tt, record_run (utcnow w 1) (utcnow w 2) "success" rows None db)
          | (Failed message, db) =>
              (Failed message,
               record_run (utcnow w 1) (utcnow w 2) "failed" 0 (Some message) db)
          end
      end
  end.

End Store.

End Ingest.

(** Frames as a source delivers them, a clock and stores to run the pipeline
    on. *)
Module IngestSamples.
Import Pandas Ingest.

(** Two yearly prices under the names of the API. *)
Definition yearly_prices : DataFrame :=
  [ ("area", [Str "Kenya"; Str "Kenya"]);
    ("item_code", [Int 2514; Int 2514]);
    ("time", [Int 2021; Int 2022]);
    ("value", [Flt (5 # 2); Flt 3]) ].

(** The period of a price under two names. *)
Definition two_period_names : DataFrame :=
  [ ("time", [Int 2021]);
    ("timeperiod", [Int 2021]);
    ("value", [Flt (5 # 2)]) ].

(** No price. *)
Definition without_price : DataFrame :=
  [ ("area", [Str "Kenya"]); ("time", [Int 2021]) ].


Definition empty_database : Database :=
  {| faostat_prices := []; ingestion_runs := [] |}.

(** A float that [to_json] writes as it is. *)
Definition exact : Q -> Q := fun q => q.

(** An API that cannot be reached and a sample file that holds [sample]. *)
Definition offline (sample : DataFrame) : World :=
  {| requests_get := fun _ _ => Failed "Connection refused";
     read_csv := fun _ => Done sample;
     getenv := fun _ => None;
     utcnow := fun n => (1700000000000000000 + Z.of_nat n)%Z |}.

(** An API that answers with [data]. *)
Definition online (data : list JsonRecord) (sample : DataFrame) : World :=
  {| requests_get := fun _ _ => Done (Some data);
     read_csv := fun _ => Done sample;
     getenv := fun _ => None;
     utcnow := fun n => (1700000000000000000 + Z.of_nat n)%Z |}.

End IngestSamples.

(** ** streamlit_app.py *)

Module Dashboard.

(** A row of [load_prices()]: the columns selected from
    [processed_data.commodity_prices].  [price_date] is the day of the price
    in days since the epoch, [price_value] the price; the table declares both
    not null. *)
Record Price : Type := {
  price_date : Z;
  commodity_id : option string;
  commodity_name : option string;
  price_type : option string;
  price_currency : option string;
  price_value : Q;
  source_name : option string;
  ingested_at : option Z
}.

(** [.fillna("Unknown")] on a cell *)
Definition fillna (v : option string) : string :=
  match v with
  | Some s => s
  | None => "Unknown"
  end.

(** [.unique()]: the values in order of first appearance *)
Fixpoint unique (l : list string) : list string :=
  match l with
  | [] => []
  | x :: rest => x :: filter (fun y => negb (String.eqb x y)) (unique rest)
  end.

(** The options of the two selection widgets, before [sorted]. *)
Definition commodities (df : list Price) : list string :=
  unique (map (fun r => fillna (commodity_name r)) df).

Definition price_types (df : list Price) : list string :=
  unique (map (fun r => fillna (price_type r)) df).

(** [df["price_date"].min()] and [.max()] of a frame with the first row
    [first]. *)
Definition min_date (first : Price) (df : list Price) : Z :=
  fold_right Z.min (price_date first) (map price_date df).

Definition max_date (first : Price) (df : list Price) : Z :=
  fold_right Z.max (price_date first) (map price_date df).

(** What the widgets return: the commodity selected, the price types
    selected, and the dates of the date input, of which there are two once a
    range is complete. *)
Record Selection : Type := {
  selected_commodity : string;
  selected_price_types : list string;
  date_range : list Z
}.

(** The three filters of [render_dashboard]; each applies only when its
    selection is truthy. *)
Definition filtered (df : list Price) (s : Selection) : list Price :=
  let filtered := df in
  let filtered :=
    if negb (String.eqb (selected_commodity s) "")
    then filter (fun r => String.eqb (fillna (commodity_name r))
                                     (selected_commodity s)) filtered
    else filtered in
  let filtered :=
    match selected_price_types s with
    | [] => filtered
    | _ => filter (fun r => existsb (String.eqb (fillna (price_type r)))
                                    (selected_price_types s)) filtered
    end in
  match date_range s with
  | [start; end_] =>
      filter (fun r => Z.leb start (price_date r) && Z.leb (price_date r) end_)
             filtered
  | _ => filtered
  end.

(** What the page shows below its title. *)
Inductive View : Type :=
| no_data_available
| no_data_matches
| dashboard (latest_date : Z)      (* the day named in the metric's help *)
            (latest_prices : list Q)  (* the prices the metric averages *)
            (currency : option string) (* the currency written after it *)
            (raw_data : list Price).   (* the rows charted and listed *)

Definition render_dashboard (df : list Price) (s : Selection) : View :=
  match df with
  | [] => no_data_available
  | _ =>
      match filtered df s with
      | [] => no_data_matches
      | (first :: _) as rows =>
          let latest_date := max_date first rows in
          dashboard latest_date
            (map price_value
               (filter (fun r => Z.eqb (price_date r) latest_date) rows))
            (price_currency first)
            rows
      end
  end.

(** The selection the widgets start with, for the commodity [commodity]:
    every price type, and the range of the dates of the frame. *)
Definition default_selection (commodity : string) (types : list string)
    (df : list Price) : Selection :=
  {| selected_commodity := commodity;
     selected_price_types := types;
     date_range :=
       match df with
       | [] => []
       | first :: _ => [min_date first df; max_date first df]
       end |}.

End Dashboard.

Module DashboardSamples.
Import Dashboard.

Definition price (day : Z) (name type currency : option string) (value : Q)
    : Price :=
  {| price_date := day;
     commodity_id := Some "2514";
     commodity_name := name;
     price_type := type;
     price_currency := currency;
     price_value := value;
     source_name := Some "FAOSTAT";
     ingested_at := None |}.

(** Coffee priced in shillings first and in dollars later, and a price
    without a commodity name. *)
Definition coffee_prices : list Price :=
  [ price 18628 (Some "Coffee") (Some "Wholesale") (Some "KES") 250;
    price 18993 (Some "Coffee") None (Some "USD") (5 # 2);
    price 18993 None (Some "Wholesale") (Some "USD") 3 ].

End DashboardSamples.


(** * The reference routines meet the contract *)

Module PandasLaws.
Import Pandas.


Lemma ts_geb_total (a b : option Z) : ts_geb a b = false -> ts_geb b a = true.
Proof.
  destruct a as [x|], b as [y|]; simpl; try discriminate; auto.
  intros H. apply Z.leb_gt in H. apply Z.leb_le. lia.
Qed.

Lemma ts_geb_trans (a b c : option Z) :
  ts_geb a b = true -> ts_geb b c = true -> ts_geb a c = true.
Proof.
  destruct a as [x|], b as [y|], c as [z|]; simpl; try discriminate; auto.
  intros H1 H2. apply Z.leb_le in H1, H2. apply Z.leb_le. lia.
Qed.

Section Sorting.
Context {A : Type} (key : A -> option Z).

Lemma insert_desc_perm (x : A) (l : list A) :
  Permutation (insert_desc key x l) (x :: l).
Proof.
  induction l as [|y rest IH]; simpl; [reflexivity|].
  destruct (ts_geb (key x) (key y)); [reflexivity|].
  rewrite IH. apply perm_swap.
Qed.

Lemma stable_sort_perm (l : list A) : Permutation (stable_sort key l) l.
Proof.
  induction l as [|x rest IH]; simpl; [reflexivity|].
  rewrite insert_desc_perm. now constructor.
Qed.

Lemma insert_desc_sorted (x : A) (l : list A) :
  StronglySorted (before key) l -> StronglySorted (before key) (insert_desc key x l).
Proof.
  induction 1 as [|y rest Hs IH Hy]; simpl.
  - constructor; constructor.
  - destruct (ts_geb (key x) (key y)) eqn:E.
    + constructor; [now constructor|].
      constructor; [exact E|].
      eapply Forall_impl; [|exact Hy].
      intros z Hz. unfold before in *. eapply ts_geb_trans; eauto.
    + constructor; [exact IH|].
      eapply Permutation_Forall; [symmetry; apply insert_desc_perm|].
      constructor; [|exact Hy].
      unfold before. now apply ts_geb_total.
Qed.

Lemma stable_sort_sorted (l : list A) :
  StronglySorted (before key) (stable_sort key l).
Proof.
  induction l as [|x rest IH]; simpl; [constructor|].
  now apply insert_desc_sorted.
Qed.

Lemma reversing_sort_perm (l : list A) : Permutation (reversing_sort key l) l.
Proof.
  unfold reversing_sort. rewrite stable_sort_perm.
  symmetry. apply Permutation_rev.
Qed.

Lemma reversing_sort_sorted (l : list A) :
  StronglySorted (before key) (reversing_sort key l).
Proof. apply stable_sort_sorted. Qed.

End Sorting.

Lemma nth_map_with {X Y} (f : X -> Y) (l : list X) (i : nat) (d : X) (d' : Y) :
  f d = d' -> nth i (map f l) d' = f (nth i l d).
Proof. intros <-. apply map_nth. Qed.

Lemma ref_to_datetime_nat (s : Series) (i : nat) (t : string) :
  nth i s NA = Str t -> t = "nan" \/ t = "None" ->
  nth i (ref_to_datetime s) None = None.
Proof.
  intros Hs Ht. unfold ref_to_datetime.
  rewrite (nth_map_with _ s i NA None eq_refl), Hs.
  destruct Ht; subst; reflexivity.
Qed.

Lemma ref_to_numeric_na (s : Series) (i : nat) :
  nth i s NA = NA -> nth i (ref_to_numeric s) None = None.
Proof.
  intros Hs. unfold ref_to_numeric.
  now rewrite (nth_map_with _ s i NA None eq_refl), Hs.
Qed.

Lemma reference_contract : Contract reference.
Proof.
  constructor; simpl.
  - now left.
  - intros s. apply length_map.
  - exact ref_to_datetime_nat.
  - intros s. apply length_map.
  - exact ref_to_numeric_na.
  - reflexivity.
  - reflexivity.
  - intros A key l. apply stable_sort_perm.
  - intros A key l. apply stable_sort_sorted.
Qed.

Lemma reversing_contract : Contract reversing.
Proof.
  constructor; simpl.
  - now left.
  - intros s. apply length_map.
  - exact ref_to_datetime_nat.
  - intros s. apply length_map.
  - exact ref_to_numeric_na.
  - reflexivity.
  - reflexivity.
  - intros A key l. apply reversing_sort_perm.
  - intros A key l. apply reversing_sort_sorted.
Qed.

End PandasLaws.

(** * Properties of the Deduplicator *)

Module Properties.
Import Pandas Clean Spec PandasLaws.

(** ** Equality of business keys is an equivalence *)


Lemma scalar_eqb_sym (a b : Scalar) : scalar_eqb a b = true -> scalar_eqb b a = true.
Proof.
  destruct a, b; simpl; try discriminate; auto;
    try (rewrite String.eqb_sym; auto; fail);
    rewrite !Qeq_bool_iff; intros H; symmetry; exact H.
Qed.



Lemma key_eqb_sym (a b : BusinessKey) : key_eqb a b = true -> key_eqb b a = true.
Proof.
  destruct a as [[[d1 c1] t1] s1], b as [[[d2 c2] t2] s2]. simpl.
  rewrite !andb_true_iff. intros [[[Hd Hc] Ht] Hs].
  repeat split; auto using scalar_eqb_sym.
  destruct d1, d2; simpl in *; try discriminate; auto.
  now rewrite Z.eqb_sym.
Qed.


(** ** drop_duplicates *)

Section DropDuplicates.
Context {A K : Type} (eqb : K -> K -> bool) (key : A -> K).
Hypothesis eqb_refl : forall a, eqb a a = true.
Hypothesis eqb_sym : forall a b, eqb a b = true -> eqb b a = true.
Hypothesis eqb_trans :
  forall a b c, eqb a b = true -> eqb b c = true -> eqb a c = true.

Lemma eqb_sym_false (a b : K) : eqb a b = false -> eqb b a = false.
Proof using eqb_sym.
  intros H. destruct (eqb b a) eqn:E; auto.
  apply eqb_sym in E. congruence.
Qed.

Lemma dd_incl (seen : list K) (l : list A) (x : A) :
  In x (drop_duplicates_from eqb key seen l) -> In x l.
Proof using Type.
  revert seen. induction l as [|r rest IH]; simpl; intros seen H; auto.
  destruct (existsb (eqb (key r)) seen).
  - right. eapply IH; eauto.
  - destruct H as [H|H]; [now left|right; eapply IH; eauto].
Qed.

Lemma dd_unseen (seen : list K) (l : list A) (x : A) :
  In x (drop_duplicates_from eqb key seen l) ->
  existsb (eqb (key x)) seen = false.
Proof using Type.
  revert seen. induction l as [|r rest IH]; simpl; intros seen H; [easy|].
  destruct (existsb (eqb (key r)) seen) eqn:E.
  - now apply IH.
  - destruct H as [<-|H]; [exact E|].
    apply IH in H. simpl in H. now apply orb_false_iff in H.
Qed.

Lemma dd_distinct (seen : list K) (l : list A) :
  distinct_keys eqb key (drop_duplicates_from eqb key seen l).
Proof using eqb_sym.
  revert seen. induction l as [|r rest IH]; simpl; intros seen.
  - constructor.
  - destruct (existsb (eqb (key r)) seen); [apply IH|].
    constructor; [|apply IH].
    apply Forall_forall. intros y Hy. apply dd_unseen in Hy.
    simpl in Hy. apply orb_false_iff in Hy. unfold differ.
    apply eqb_sym_false. exact (proj1 Hy).
Qed.



Lemma dd_fixed (seen : list K) (l : list A) :
  distinct_keys eqb key l ->
  Forall (fun x => existsb (eqb (key x)) seen = false) l ->
  drop_duplicates_from eqb key seen l = l.
Proof using eqb_sym.
  revert seen. induction l as [|r rest IH]; simpl; intros seen Hd Hs; [easy|].
  inversion Hd as [|? ? Hr Hrest]; subst.
  inversion Hs as [|? ? Hsr Hsrest]; subst.
  rewrite Hsr. f_equal. apply IH; [exact Hrest|].
  rewrite Forall_forall in *. intros y Hy. simpl.
  apply orb_false_iff. split; [|now apply Hsrest].
  apply eqb_sym_false. apply Hr. exact Hy.
Qed.

Lemma distinct_keys_perm (l l' : list A) :
  Permutation l l' -> distinct_keys eqb key l -> distinct_keys eqb key l'.
Proof using eqb_sym.
  unfold distinct_keys.
  induction 1 as [|x l l' Hp IH|x y l|l l' l'' Hp1 IH1 Hp2 IH2]; intros Hd; auto.
  - inversion Hd; subst. constructor; [|auto].
    eapply Permutation_Forall; eauto.
  - inversion Hd as [|? ? Hy Hrest]; subst.
    inversion Hrest as [|? ? Hx Hl]; subst.
    inversion Hy as [|? ? Hyx Hyl]; subst.
    constructor; [|constructor; auto].
    constructor; [|exact Hx].
    apply eqb_sym_false. exact Hyx.
Qed.

End DropDuplicates.

(** ** The stable sort *)

Section Stability.
Context {A : Type} (key : A -> option Z).




End Stability.

(** ** The Deduplicator *)

Section Deduplicator.
Context {L : Library} {C : Contract L}.

Lemma deduplicate_unique (output : list Indexed) :
  unique_keys (deduplicate output).
Proof. apply dd_distinct. exact key_eqb_sym. Qed.

Lemma deduplicate_incl (output : list Indexed) (r : Indexed) :
  In r (deduplicate output) -> In r output.
Proof.
  intros H. apply dd_incl in H.
  eapply Permutation_in; [apply sort_values_perm|exact H].
Qed.



End Deduplicator.



Lemma dd_sorted {A K} (eqb : K -> K -> bool) (key : A -> K)
    (R : A -> A -> Prop) (seen : list K) (l : list A) :
  StronglySorted R l -> StronglySorted R (drop_duplicates_from eqb key seen l).
Proof.
  intros H. revert seen. induction H as [|x l Hs IH Hx]; simpl; intros seen.
  - constructor.
  - destruct (existsb (eqb (key x)) seen); [apply IH|].
    constructor; [apply IH|].
    rewrite Forall_forall in *. intros y Hy. apply Hx.
    eapply dd_incl; eauto.
Qed.

Lemma stable_sort_sorted_id {A} (key : A -> option Z) (l : list A) :
  StronglySorted (before key) l -> stable_sort key l = l.
Proof.
  induction 1 as [|x l Hs IH Hx]; simpl; [reflexivity|].
  rewrite IH. destruct l as [|y l]; [reflexivity|]. simpl.
  inversion Hx as [|? ? Hxy _]; subst. unfold before in Hxy.
  now rewrite Hxy.
Qed.

Lemma stable_deduplicate_again (output : list Indexed) :
  @deduplicate reference (@deduplicate reference output)
  = @deduplicate reference output.
Proof.
  set (once := @deduplicate reference output).
  unfold deduplicate at 1. unfold drop_duplicates.
  cbn [sort_values reference].
  rewrite stable_sort_sorted_id.
  - apply dd_fixed; [exact key_eqb_sym| |apply Forall_forall; reflexivity].
    apply (@deduplicate_unique reference).
  - unfold once, deduplicate, drop_duplicates.
    apply dd_sorted.
    apply (@sort_values_sorted reference reference_contract).
Qed.

End Properties.

(** * Properties of the pipeline *)

Module Pipeline.
Import Pandas Clean Spec PandasLaws Properties.

Lemma ForallOrdPairs_map {X Y} (R : Y -> Y -> Prop) (f : X -> Y) (l : list X) :
  ForallOrdPairs (fun a b => R (f a) (f b)) l -> ForallOrdPairs R (map f l).
Proof.
  induction 1 as [|x l Hx Hl IH]; simpl; constructor; auto.
  now apply Forall_map.
Qed.

Lemma unique_index {X} (l : list (nat * X)) (i : nat) (a b : X) :
  NoDup (map fst l) -> In (i, a) l -> In (i, b) l -> a = b.
Proof.
  induction l as [|[j c] l IH]; simpl; intros Hn Ha Hb; [easy|].
  inversion Hn as [|? ? Hj Hn']; subst.
  destruct Ha as [Ha|Ha], Hb as [Hb|Hb]; try congruence.
  - injection Ha as -> ->. exfalso. apply Hj.
    change i with (fst (i, b)). now apply in_map.
  - injection Hb as -> ->. exfalso. apply Hj.
    change i with (fst (i, a)). now apply in_map.
  - now apply IH.
Qed.

Lemma drop_required_In (output : list Indexed) (r : Indexed) :
  In r (drop_required output) <->
  In r output /\ has_price_date r = true /\ has_price_value r = true.
Proof.
  unfold drop_required, dropna. rewrite filter_In. simpl.
  rewrite andb_true_r, andb_true_iff. tauto.
Qed.

Section WithLibrary.
Context {L : Library} {C : Contract L}.

(** What [coerce] builds: one row per label of the date column, each field
    read at that label. *)
Lemma coerce_rows (utcnow : Z) (df : DataFrame) (output : list Indexed) :
  coerce utcnow df = Ok output ->
  exists ids,
    lookup "raw_id" df = Some ids
    /\ map fst output = seq 0 (List.length (date_column df))
    /\ forall i r, In (i, r) output ->
         (i < List.length (date_column df))%nat
         /\ price_date r =
              nth i (to_datetime
                       (map (fun v => Str (strip (astype_str v))) (date_column df)))
                  None
         /\ price_value r = nth i (to_numeric (price_column df)) None
         /\ raw_id r = nth i ids NA.
Proof.
  unfold coerce. cbv zeta.
  fold (date_column df). fold (price_column df).
  destruct (lookup "raw_id" df) as [ids|] eqn:E; [|discriminate].
  generalize (date_column df) (price_column df). intros dates prices.
  intros H. exists ids. split; [reflexivity|].
  apply (f_equal (fun r => match r with Ok o => o | Raise _ => [] end)) in H.
  subst output.
  rewrite to_datetime_length, length_map. split.
  - rewrite map_map. cbn [fst]. apply map_id.
  - intros i r Hin. apply in_map_iff in Hin.
    destruct Hin as (j & Hj & Hin).
    apply in_seq in Hin.
    apply (f_equal snd) in Hj as Hr. apply (f_equal fst) in Hj.
    cbn [fst snd] in Hj, Hr. subst j r.
    cbn [price_date price_value raw_id].
    repeat split; try reflexivity. lia.
Qed.

Lemma transform_cases (utcnow : Z) (df : DataFrame) (out : Table) :
  transform utcnow df = Ok out ->
  (empty df = true /\ out = unchanged df)
  \/ (empty df = false /\ exists output,
        coerce utcnow df = Ok output
        /\ out = {| labels := canonical_columns;
                    rows := reset_index (deduplicate (drop_required output)) |}).
Proof.
  unfold transform. destruct (empty df).
  - intros H. injection H as <-. now left.
  - destruct (coerce utcnow df) as [output|e]; simpl; [|discriminate].
    intros H. injection H as <-. right. split; [reflexivity|].
    now exists output.
Qed.

Lemma deduplicated_rows_present (output : list Indexed) (r : Indexed) :
  In r (deduplicate (drop_required output)) ->
  In r output /\ required_present (snd r).
Proof.
  intros H. apply deduplicate_incl, drop_required_In in H.
  destruct H as (Hin & Hd & Hv). split; [exact Hin|].
  unfold has_price_date, has_price_value, required_present in *.
  destruct (price_date (snd r)), (price_value (snd r)); try discriminate.
  split; discriminate.
Qed.

(** A row whose date or price coerced to null does not survive. *)
Lemma null_required_dropped (utcnow : Z) (df : DataFrame)
    (output : list Indexed) (i : nat) (r : Row) :
  coerce utcnow df = Ok output -> In (i, r) output ->
  price_date r = None \/ price_value r = None ->
  ~ In i (surviving output).
Proof.
  intros Hc Hin Hnull Hs. unfold surviving in Hs.
  apply in_map_iff in Hs. destruct Hs as ([j r'] & Hj & Hs). simpl in Hj. subst j.
  apply deduplicated_rows_present in Hs. destruct Hs as (Hin' & Hd & Hv).
  destruct (coerce_rows _ _ _ Hc) as (ids & _ & Hidx & _).
  assert (r' = r).
  { eapply unique_index; eauto. rewrite Hidx. apply seq_NoDup. }
  subst r'. simpl in *. tauto.
Qed.

Lemma contains_setitem (c : string) (s : Series) (df : DataFrame) :
  lookup c (setitem c s df) = Some s.
Proof.
  induction df as [|[c' s'] rest IH]; simpl.
  - now rewrite String.eqb_refl.
  - destruct (String.eqb c c') eqn:E; simpl; rewrite E; auto.
Qed.




End WithLibrary.

(** ** The Field Reconciler *)

Lemma not_all_na (series : Series) :
  negb (forallb isna series) = existsb notna series.
Proof.
  induction series as [|v rest IH]; simpl; [reflexivity|].
  rewrite negb_andb, IH. reflexivity.
Qed.

Lemma coalesce_reconcile {D : Type} (df : DataFrame) (aliases : list string)
    (default : option D) :
  _coalesce_columns df aliases default = reconcile df aliases default.
Proof.
  unfold reconcile, first_qualifying.
  induction aliases as [|alias rest IH]; simpl; [reflexivity|].
  unfold qualifies at 1.
  destruct (lookup alias df) as [series|] eqn:E; [|exact IH].
  rewrite not_all_na. destruct (existsb notna series); [|exact IH].
  now rewrite E.
Qed.

Lemma qualifies_iff (df : DataFrame) (alias : string) :
  qualifies df alias = true <->
  exists series, lookup alias df = Some series
                 /\ exists v, In v series /\ v <> NA.
Proof.
  unfold qualifies. destruct (lookup alias df) as [series|]; split.
  - intros H. exists series. split; [reflexivity|].
    apply existsb_exists in H. destruct H as (v & Hv & Hn).
    exists v. split; [exact Hv|]. now destruct v.
  - intros (s' & Hs & v & Hv & Hn). injection Hs as <-.
    apply existsb_exists. exists v. split; [exact Hv|]. now destruct v.
  - discriminate.
  - intros (s' & Hs & _). discriminate.
Qed.

Lemma first_qualifying_iff (df : DataFrame) (aliases : list string) (alias : string) :
  first_qualifying df aliases = Some alias <->
  exists earlier later,
    aliases = earlier ++ alias :: later
    /\ qualifies df alias = true
    /\ Forall (fun a => qualifies df a = false) earlier.
Proof.
  unfold first_qualifying. induction aliases as [|a rest IH]; simpl.
  - split; [discriminate|]. intros (e & l & H & _). now destruct e.
  - destruct (qualifies df a) eqn:E; split.
    + intros H. injection H as <-. exists [], rest. repeat split; auto.
    + intros (e & l & H & Hq & He). destruct e as [|a' e].
      * simpl in H. now injection H as ->.
      * simpl in H. injection H as <- _. inversion He; congruence.
    + intros H. apply IH in H. destruct H as (e & l & -> & Hq & He).
      exists (a :: e), l. repeat split; auto.
    + intros (e & l & H & Hq & He). apply IH. destruct e as [|a' e].
      * simpl in H. injection H as <- _. congruence.
      * simpl in H. injection H as _ ->. inversion He; subst.
        exists e, l. repeat split; auto.
Qed.

(** A series the Reconciler returns is a column of the frame, whole, or the
    column of nulls. *)
Lemma coalesce_series {D : Type} (df : DataFrame) (aliases : list string)
    (default : option D) (series : Series) :
  _coalesce_columns df aliases default = inl series ->
  (exists alias, first_qualifying df aliases = Some alias
                 /\ lookup alias df = Some series)
  \/ (first_qualifying df aliases = None /\ default = None
      /\ series = repeat NA (len df)).
Proof.
  rewrite coalesce_reconcile. unfold reconcile.
  destruct (first_qualifying df aliases) as [alias|] eqn:E.
  - pose proof E as Hq. apply first_qualifying_iff in Hq.
    destruct Hq as (_ & _ & _ & Hq & _). unfold qualifies in Hq.
    destruct (lookup alias df) as [s'|] eqn:El; [|discriminate].
    intros H. injection H as <-. left. now exists alias.
  - destruct default; [discriminate|].
    intros H. injection H as <-. now right.
Qed.

(** ** Frames read from the raw table *)

Lemma json_normalize_lengths (payloads : list (list (string * Scalar))) :
  columns_of_length (List.length payloads) (json_normalize payloads).
Proof.
  unfold columns_of_length, json_normalize. apply Forall_forall.
  intros c Hc. apply in_map_iff in Hc. destruct Hc as (k & <- & _).
  simpl. apply length_map.
Qed.

Lemma setitem_lengths (n : nat) (c : string) (s : Series) (df : DataFrame) :
  List.length s = n -> columns_of_length n df ->
  columns_of_length n (setitem c s df).
Proof.
  intros Hs. unfold columns_of_length.
  induction df as [|[c' s'] rest IH]; simpl; intros Hdf.
  - constructor; auto.
  - inversion Hdf; subst. destruct (String.eqb c c'); constructor; auto.
Qed.

Lemma columns_len (n : nat) (df : DataFrame) :
  df <> [] -> columns_of_length n df -> len df = n.
Proof.
  destruct df as [|[c s] rest]; [easy|]. intros _ H. now inversion H.
Qed.

Lemma setitem_not_nil (c : string) (s : Series) (df : DataFrame) :
  setitem c s df <> [].
Proof.
  destruct df as [|[c' s'] rest]; simpl; [easy|].
  now destruct (String.eqb c c').
Qed.

Lemma lookup_length (n : nat) (c : string) (df : DataFrame) (s : Series) :
  columns_of_length n df -> lookup c df = Some s -> List.length s = n.
Proof.
  unfold columns_of_length.
  induction df as [|[c' s'] rest IH]; simpl; intros Hdf; [discriminate|].
  inversion Hdf; subst. destruct (String.eqb c c').
  - intros H. now injection H as <-.
  - now apply IH.
Qed.

Lemma coalesce_length {D : Type} (n : nat) (df : DataFrame)
    (aliases : list string) (default : option D) (s : Series) :
  columns_of_length n df -> len df = n ->
  _coalesce_columns df aliases default = inl s -> List.length s = n.
Proof.
  intros Hdf Hlen H. apply coalesce_series in H.
  destruct H as [(alias & _ & Hl)|(_ & _ & ->)].
  - eapply lookup_length; eauto.
  - rewrite repeat_length. exact Hlen.
Qed.

Lemma series_of_length (n : nat) (df : DataFrame) (aliases : list string) :
  columns_of_length n df -> len df = n ->
  List.length (series_of (_coalesce_columns df aliases None)) = n.
Proof.
  intros Hdf Hlen.
  destruct (_coalesce_columns df aliases (@None Empty_set)) as [s|[]] eqn:E.
  simpl. eapply coalesce_length; eauto.
Qed.

Lemma loaded_frame (r : RawRecord) (rest : list RawRecord) :
  let raw_df := r :: rest in
  let df := _load_raw_dataframe raw_df in
  columns_of_length (List.length raw_df) df
  /\ len df = List.length raw_df
  /\ lookup "raw_id" df = Some (map fst raw_df)
  /\ empty df = false.
Proof.
  intros raw_df df.
  assert (Hc : columns_of_length (List.length raw_df) df).
  { unfold df, _load_raw_dataframe, raw_df.
    apply setitem_lengths; [apply length_map|].
    pose proof (json_normalize_lengths (map snd (r :: rest))) as H.
    rewrite length_map in H. exact H. }
  assert (Hn : df <> []) by apply setitem_not_nil.
  assert (Hl : len df = List.length raw_df) by now apply columns_len.
  repeat split; auto.
  - apply contains_setitem.
  - unfold empty. destruct df; [easy|]. rewrite Hl. reflexivity.
Qed.

(** ** Validation *)

Section Validation.
Context {L : Library} {C : Contract L}.

Lemma concat_map_nil {X Y} (g : X -> list Y) (l : list X) :
  (forall x, In x l -> g x = []) -> List.concat (map g l) = [].
Proof.
  induction l as [|x l IH]; simpl; intros H; [reflexivity|].
  rewrite (H x), IH; auto.
Qed.

Lemma check_field_ok (t : Table) (f : Field) :
  existsb (String.eqb (name f)) (labels t) = true ->
  (forall i r, In r (rows t) -> check_cell f i (getattr (name f) r) = []) ->
  check_field t f = [].
Proof.
  intros Hl Hr. unfold check_field. rewrite Hl.
  apply concat_map_nil. intros [i r] Hin. simpl.
  apply Hr. eapply in_combine_r; eauto.
Qed.

Lemma validate_ok (rs : list Row) :
  Forall required_present rs -> Forall has_integer_id rs ->
  validate {| labels := canonical_columns; rows := rs |}
  = Ok {| labels := canonical_columns; rows := rs |}.
Proof.
  intros Hp Hi. rewrite Forall_forall in Hp, Hi.
  unfold validate.
  replace (List.concat (map (check_field {| labels := canonical_columns; rows := rs |})
                            CommodityPriceSchema)) with (@nil failure);
    [reflexivity|].
  symmetry. apply concat_map_nil. intros f Hf.
  apply check_field_ok.
  - simpl in Hf. repeat (destruct Hf as [<-|Hf]; [reflexivity|]). easy.
  - intros i r Hr. cbn [rows] in Hr.
    destruct (Hp r Hr) as [Hd Hv]. destruct (Hi r Hr) as [z Hz].
    simpl in Hf.
    repeat (destruct Hf as [<-|Hf]; [unfold check_cell; cbn|]); try easy.
    all: try (destruct (price_date r); [reflexivity|congruence]).
    all: try (destruct (price_value r); [reflexivity|congruence]).
    all: try (rewrite Hz; cbn; rewrite astype_int_int; reflexivity).
    all: try (match goal with |- context [match ?v with _ => _ end] => destruct v end; reflexivity).
Qed.

End Validation.

End Pipeline.

(** * The claims *)

Module Claims.
Import Pandas Clean Spec Samples PandasLaws Properties Pipeline.

(** ** Deduplication (C1, C2, C7) *)




(** C2: no two rows of the frame [transform] returns have the same business
    key. *)
Theorem transform_business_keys_unique {L : Library} (utcnow : Z)
    (df : DataFrame) (out : Table) :
  transform utcnow df = Ok out ->
  ForallOrdPairs
    (fun a b => key_eqb (business_key a) (business_key b) = false) (rows out).
Proof.
  intros H. apply transform_cases in H.
  destruct H as [[_ ->]|[_ (output & _ & ->)]]; simpl; [constructor|].
  unfold reset_index.
  apply (ForallOrdPairs_map
           (fun a b => key_eqb (business_key a) (business_key b) = false) snd).
  apply deduplicate_unique.
Qed.

Lemma transform_business_keys_unique_witness :
  exists out,
    @transform reference 0%Z (_load_raw_dataframe observed_twice) = Ok out
    /\ ForallOrdPairs
         (fun a b => key_eqb (business_key a) (business_key b) = false)
         (rows out).
Proof.
  eexists. split; [vm_compute; reflexivity|].
  apply (@transform_business_keys_unique reference 0%Z
           (_load_raw_dataframe observed_twice)).
  vm_compute. reflexivity.
Defined.

(** C7: the Deduplicator applied to its own output returns the same records;
    with the stable sort it returns the same frame. *)
Theorem deduplicate_idempotent {L : Library} {C : Contract L}
    (output : list Indexed) :
  Permutation (deduplicate (deduplicate output)) (deduplicate output)
  /\ @deduplicate reference (@deduplicate reference output)
     = @deduplicate reference output.
Proof.
  split; [|apply stable_deduplicate_again].
  set (once := deduplicate output).
  (* the second pass sorts [once], whose keys are all different ... *)
  assert (Hkeys : unique_keys
                    (sort_values (fun r => ingested_at (snd r)) once)).
  { eapply distinct_keys_perm.
    - exact key_eqb_sym.
    - symmetry. apply sort_values_perm.
    - apply deduplicate_unique. }
  (* ... so that it drops nothing *)
  unfold deduplicate at 1. unfold drop_duplicates.
  rewrite (dd_fixed key_eqb (fun r => business_key (snd r)) key_eqb_sym
             [] _ Hkeys).
  - apply sort_values_perm.
  - apply Forall_forall. reflexivity.
Qed.

Lemma deduplicate_idempotent_witness :
  let output := [wholesale 0 d2021_02_01; wholesale 1 d2021_03_01;
                 wholesale 2 d2021_03_01] in
  Permutation (@deduplicate reversing (@deduplicate reversing output))
              (@deduplicate reversing output).
Proof.
  exact (proj1 (@deduplicate_idempotent reversing reversing_contract
                  [wholesale 0 d2021_02_01; wholesale 1 d2021_03_01;
                   wholesale 2 d2021_03_01])).
Defined.

(** ** Reconciliation (C3, C10) *)

(** C3: [_coalesce_columns] returns the column of the first alias, in priority
    order, that is a column of the frame and holds a value in some row,
    whichever row; failing that the default; failing that a column of nulls.
    A record with [Value = "12.50"] and [Item Code (CPC) = "0711"] and neither
    [price_value] nor [commodity_id] gets the price 12.50 and the commodity
    "0711". *)
Theorem coalesce_selects_first_qualifying_alias :
  (forall (D : Type) (df : DataFrame) (aliases : list string)
          (default : option D),
      _coalesce_columns df aliases default = reconcile df aliases default)
  /\ (forall df aliases alias,
        first_qualifying df aliases = Some alias <->
        exists earlier later,
          aliases = earlier ++ alias :: later
          /\ qualifies df alias = true
          /\ Forall (fun a => qualifies df a = false) earlier)
  /\ (forall df alias,
        qualifies df alias = true <->
        exists series, lookup alias df = Some series
                       /\ exists v, In v series /\ v <> NA)
  /\ (let df := _load_raw_dataframe historical in
      _coalesce_columns df ["price_value"; "Value"] (@None Empty_set)
      = inl [Str "12.50"]
      /\ @to_numeric reference [Str "12.50"] = [Some (25 # 2)]
      /\ _coalesce_columns df ["commodity_id"; "item_code"; "Item Code (CPC)"]
           (@None Scalar)
         = inl [Str "0711"]
      /\ @coerce reference 0%Z df
         = Ok [(0%nat, {| price_date := None;
                          commodity_id := Str "0711";
                          commodity_name := NA;
                          price_type := NA;
                          price_currency := Str "USD";
                          price_value := Some (25 # 2);
                          source_name := Str "FAOSTAT";
                          ingested_at := Some 0%Z;
                          raw_id := Int 1 |})]).
Proof.
  split; [intros; apply coalesce_reconcile|].
  split; [apply first_qualifying_iff|].
  split; [apply qualifies_iff|].
  repeat split; vm_compute; reflexivity.
Qed.

(** The object columns of [output] are what [_coalesce_columns] returned, read
    at the row's label. *)
Lemma coerce_objects {L : Library} (utcnow : Z) (df : DataFrame)
    (output : list Indexed) (i : nat) (r : Row) :
  coerce utcnow df = Ok output -> In (i, r) output ->
  commodity_id r
  = cell NA i (_coalesce_columns df ["commodity_id"; "item_code"; "Item Code (CPC)"] None)
  /\ commodity_name r
     = cell NA i (_coalesce_columns df ["commodity_name"; "item"; "Item"] None)
  /\ price_type r
     = cell NA i (_coalesce_columns df ["price_type"; "element"; "Element"] None)
  /\ price_currency r
     = cell NA i (_coalesce_columns df ["price_currency"; "unit"; "Unit"]
                    (Some (Str "USD")))
  /\ source_name r
     = cell NA i (_coalesce_columns df ["source_name"; "Source"]
                    (Some (Str "FAOSTAT"))).
Proof.
  unfold coerce. cbv zeta.
  destruct (lookup "raw_id" df) as [ids|]; [|discriminate].
  intros H Hin.
  apply (f_equal (fun r => match r with Ok o => o | Raise _ => [] end)) in H.
  subst output. apply in_map_iff in Hin. destruct Hin as (j & Hj & _).
  apply (f_equal snd) in Hj as Hr. apply (f_equal fst) in Hj.
  cbn [fst snd] in Hj, Hr. subst j r.
  cbn [commodity_id commodity_name price_type price_currency source_name].
  repeat split; reflexivity.
Qed.

Lemma surviving_in_output {L : Library} {C : Contract L} (output : list Indexed) (i : nat) :
  In i (surviving output) -> exists r, In (i, r) output.
Proof.
  unfold surviving. intros H. apply in_map_iff in H.
  destruct H as ([j r] & Hj & H). simpl in Hj. subst j.
  apply deduplicated_rows_present in H. exists r. tauto.
Qed.

Lemma null_cell_dropped {L : Library} {C : Contract L} (utcnow : Z) (df : DataFrame)
    (output : list Indexed) (i : nat) :
  coerce utcnow df = Ok output ->
  nth i (date_column df) NA = NA \/ nth i (price_column df) NA = NA ->
  ~ In i (surviving output).
Proof.
  intros Hc Hnull Hs.
  destruct (surviving_in_output _ _ Hs) as (r & Hin).
  destruct (coerce_rows _ _ _ Hc) as (ids & _ & _ & Hrows).
  destruct (Hrows i r Hin) as (Hi & Hd & Hv & _).
  apply (null_required_dropped _ _ _ _ _ Hc Hin); [|exact Hs].
  destruct Hnull as [Hnull|Hnull].
  - left. rewrite Hd. eapply to_datetime_nat.
    + rewrite (nth_indep _ NA (Str (strip (astype_str NA))))
        by (rewrite length_map; exact Hi).
      rewrite (map_nth (fun v => Str (strip (astype_str v)))).
      rewrite Hnull. reflexivity.
    + destruct astype_str_na as [-> | ->]; [left|right]; reflexivity.
  - right. rewrite Hv. now apply to_numeric_na.
Qed.

(** C10: an alias is chosen for the column as a whole.  The series
    [_coalesce_columns] returns is one column of the frame, unchanged; each
    row of [output] reads its value there, at its own label; and a row that
    is null in the column chosen for the date or the price is dropped, also
    when a later alias holds a value for it. *)
Theorem alias_selection_is_per_column {L : Library} {C : Contract L}
    (utcnow : Z) (df : DataFrame) :
  (forall (D : Type) (aliases : list string) (default : option D) series,
      _coalesce_columns df aliases default = inl series ->
      (exists alias, first_qualifying df aliases = Some alias
                     /\ lookup alias df = Some series)
      \/ (first_qualifying df aliases = None /\ default = None
          /\ series = repeat NA (len df)))
  /\ (forall output i r,
        coerce utcnow df = Ok output -> In (i, r) output ->
        price_date r
        = nth i (to_datetime
                   (map (fun v => Str (strip (astype_str v))) (date_column df)))
              None
        /\ price_value r = nth i (to_numeric (price_column df)) None
        /\ commodity_id r
           = cell NA i (_coalesce_columns df
                          ["commodity_id"; "item_code"; "Item Code (CPC)"] None)
        /\ commodity_name r
           = cell NA i (_coalesce_columns df ["commodity_name"; "item"; "Item"] None)
        /\ price_type r
           = cell NA i (_coalesce_columns df ["price_type"; "element"; "Element"] None)
        /\ price_currency r
           = cell NA i (_coalesce_columns df ["price_currency"; "unit"; "Unit"]
                          (Some (Str "USD")))
        /\ source_name r
           = cell NA i (_coalesce_columns df ["source_name"; "Source"]
                          (Some (Str "FAOSTAT"))))
  /\ (forall output i,
        coerce utcnow df = Ok output ->
        nth i (date_column df) NA = NA \/ nth i (price_column df) NA = NA ->
        ~ In i (surviving output)).
Proof.
  split; [intros D aliases default series; apply coalesce_series|].
  split; [|intros output i; apply null_cell_dropped].
  intros output i r Hc Hin.
  destruct (coerce_rows _ _ _ Hc) as (ids & _ & _ & Hrows).
  destruct (Hrows i r Hin) as (_ & Hd & Hv & _).
  split; [exact Hd|]. split; [exact Hv|].
  eapply coerce_objects; eauto.
Qed.

(** The second record has its price under the second alias only: it gets a
    null price from the first alias, and is dropped. *)
Lemma alias_selection_is_per_column_witness :
  price_column split_aliases = [Str "5"; NA]
  /\ lookup "Value" split_aliases = Some [NA; Str "7"]
  /\ exists output,
       @coerce reference 0%Z split_aliases = Ok output
       /\ ~ In 1%nat (@surviving reference output)
       /\ exists t, @transform reference 0%Z split_aliases = Ok t
                    /\ map raw_id (rows t) = [Int 1].
Proof.
  split; [reflexivity|]. split; [reflexivity|].
  eexists. split; [vm_compute; reflexivity|].
  split.
  - apply (proj2 (proj2 (@alias_selection_is_per_column reference
                            reference_contract 0%Z split_aliases))).
    + vm_compute. reflexivity.
    + right. reflexivity.
  - eexists. split; vm_compute; reflexivity.
Defined.

(** ** Coercion and the drop of incomplete rows (C4, C9) *)



(** C9: the date "2021" is coerced to 2021-01-01; a string that is no date is
    coerced to null, and its row is not in the frame [transform] returns. *)
Theorem year_parses_and_unparseable_date_is_dropped :
  @to_datetime reference [Str (strip (@astype_str reference (Str "2021")))]
  = [timestamp_of_date 2021 1 1]
  /\ timestamp_of_date 2021 1 1 = Some d2021_01_01
  /\ @to_datetime reference [Str (strip (@astype_str reference (Str "not a date")))]
     = [None]
  /\ (exists t,
         @transform reference 0%Z (_load_raw_dataframe one_bad_date) = Ok t
         /\ map (fun r => (raw_id r, price_date r)) (rows t)
            = [(Int 1, Some d2021_01_01)])
  /\ (forall (L : Library), Contract L ->
       forall utcnow df output i r,
         coerce utcnow df = Ok output -> In (i, r) output ->
         price_date r = None -> ~ In i (surviving output)).
Proof.
  split; [reflexivity|]. split; [reflexivity|]. split; [reflexivity|].
  split; [eexists; split; vm_compute; reflexivity|].
  intros L C utcnow df output i r Hc Hin Hd.
  eapply null_required_dropped; eauto.
Qed.

(** ** Validation (C5, C6, C8) *)



(** C6, the code on the empty raw table: [transform] hands back the empty frame, no
    row is dropped, and [validate] raises: the frame has none of the columns
    of the schema. *)
Theorem run_on_empty_table_raises {L : Library} (utcnow : Z) :
  _load_raw_dataframe [] = []
  /\ transform utcnow (_load_raw_dataframe []) = Ok {| labels := []; rows := [] |}
  /\ run utcnow []
     = Raise (SchemaErrors (map column_not_in_dataframe canonical_columns)).
Proof. repeat split. Qed.


Lemma loaded_ids_integer {L : Library} {C : Contract L} (utcnow : Z)
    (raw_df : list RawRecord) (output : list Indexed) :
  raw_df <> [] ->
  Forall (fun r => exists z, fst r = Int z) raw_df ->
  coerce utcnow (_load_raw_dataframe raw_df) = Ok output ->
  Forall (fun r => has_integer_id (snd r)) output.
Proof.
  intros Hne Hids Hc. destruct raw_df as [|r0 rest]; [easy|].
  set (raw := r0 :: rest) in *.
  destruct (loaded_frame r0 rest) as (Hcols & Hlen & Hid & _).
  fold raw in Hcols, Hlen, Hid.
  destruct (coerce_rows _ _ _ Hc) as (ids & Hids' & _ & Hrows).
  rewrite Hid in Hids'. injection Hids' as <-.
  apply Forall_forall. intros [i r] Hin.
  destruct (Hrows i r Hin) as (Hi & _ & _ & Hraw).
  unfold has_integer_id. simpl. rewrite Hraw.
  unfold date_column in Hi.
  rewrite (series_of_length _ _ _ Hcols Hlen) in Hi.
  assert (Hall : Forall (fun v => exists z, v = Int z) (map fst raw))
    by (apply Forall_map; exact Hids).
  rewrite Forall_nth in Hall. apply Hall. now rewrite length_map.
Qed.



End Claims.

(** * Further properties of the code *)

Module Extras.
Import Pandas Clean Spec Samples PandasLaws Properties Pipeline.

(** ** _load_raw_dataframe *)




Lemma lookup_setitem (c k : string) (s : Series) (df : DataFrame) :
  lookup k (setitem c s df) = if String.eqb k c then Some s else lookup k df.
Proof.
  induction df as [|[c' s'] rest IH]; simpl.
  - destruct (String.eqb k c); reflexivity.
  - destruct (String.eqb c c') eqn:Ec; simpl.
    + apply String.eqb_eq in Ec. subst c'.
      destruct (String.eqb k c); reflexivity.
    + rewrite IH. destruct (String.eqb k c') eqn:Ek; [|reflexivity].
      apply String.eqb_eq in Ek. subst c'.
      rewrite String.eqb_sym in Ec. now rewrite Ec.
Qed.





(** ** transform *)





Lemma NoDup_map_filter {X Y} (f : X -> Y) (p : X -> bool) (l : list X) :
  NoDup (map f l) -> NoDup (map f (filter p l)).
Proof.
  induction l as [|x l IH]; simpl; intros H; [constructor|].
  inversion H as [|? ? Hx Hl]; subst.
  destruct (p x); simpl; [constructor|]; auto.
  intros Hin. apply Hx. apply in_map_iff in Hin.
  destruct Hin as (y & Hy & Hin). apply filter_In in Hin.
  rewrite <- Hy. apply in_map. tauto.
Qed.

Lemma NoDup_map_dd {X K Y} (eqb : K -> K -> bool) (key : X -> K) (f : X -> Y)
    (seen : list K) (l : list X) :
  NoDup (map f l) -> NoDup (map f (drop_duplicates_from eqb key seen l)).
Proof.
  revert seen. induction l as [|x l IH]; simpl; intros seen H; [constructor|].
  inversion H as [|? ? Hx Hl]; subst.
  destruct (existsb (eqb (key x)) seen); simpl; [auto|].
  constructor; [|auto].
  intros Hin. apply Hx. apply in_map_iff in Hin.
  destruct Hin as (y & Hy & Hin). apply dd_incl in Hin.
  rewrite <- Hy. now apply in_map.
Qed.

Lemma NoDup_map_nth {X} (d : X) (l : list X) (idx : list nat) :
  NoDup l -> NoDup idx -> Forall (fun i => (i < List.length l)%nat) idx ->
  NoDup (map (fun i => nth i l d) idx).
Proof.
  intros Hl. induction idx as [|i idx IH]; simpl; intros Hn Hb; [constructor|].
  inversion Hn as [|? ? Hi Hn']; subst. inversion Hb as [|? ? Hlt Hb']; subst.
  constructor; [|auto].
  intros Hin. apply in_map_iff in Hin. destruct Hin as (j & Hj & Hin).
  rewrite Forall_forall in Hb'.
  assert (j = i) by (apply (proj1 (NoDup_nth l d) Hl); auto).
  subst j. contradiction.
Qed.

Section Lineage.
Context {L : Library} {C : Contract L}.

(** The rows left before [reset_index] have different index labels, each a
    label of the coerced frame. *)
Lemma kept_labels (utcnow : Z) (df : DataFrame) (output : list Indexed) :
  coerce utcnow df = Ok output ->
  NoDup (surviving output)
  /\ forall x, In x (deduplicate (drop_required output)) -> In x output.
Proof.
  intros Hc. destruct (coerce_rows _ _ _ Hc) as (ids & _ & Hidx & _).
  split.
  - unfold surviving, deduplicate, drop_duplicates.
    apply NoDup_map_dd.
    eapply Permutation_NoDup.
    + apply Permutation_map. symmetry. apply sort_values_perm.
    + unfold drop_required, dropna. apply NoDup_map_filter.
      rewrite Hidx. apply seq_NoDup.
  - intros x Hx. now apply deduplicated_rows_present in Hx.
Qed.

End Lineage.

(** X4: every row of the frame [transform] returns for a raw table stems from
    one record of the table: there are no more rows than records, each
    [raw_id] is the id of a record, and when the ids of the table are all
    different no two rows have the same [raw_id]. *)
Theorem transform_keeps_lineage {L : Library} {C : Contract L} (utcnow : Z)
    (raw_df : list RawRecord) (out : Table) :
  transform utcnow (_load_raw_dataframe raw_df) = Ok out ->
  (List.length (rows out) <= List.length raw_df)%nat
  /\ incl (map raw_id (rows out)) (map fst raw_df)
  /\ (NoDup (map fst raw_df) -> NoDup (map raw_id (rows out))).
Proof.
  intros Ht. destruct raw_df as [|r0 rest].
  { injection Ht as <-. simpl. repeat split; auto using NoDup_nil.
    - intros x []. }
  set (raw := r0 :: rest) in *.
  destruct (loaded_frame r0 rest) as (Hcols & Hlen & Hid & Hempty).
  fold raw in Hcols, Hlen, Hid, Hempty.
  destruct (transform_cases _ _ _ Ht) as [[He _]|[_ (output & Hc & ->)]];
    [congruence|].
  destruct (kept_labels _ _ _ Hc) as (Hnodup & Hin).
  destruct (coerce_rows _ _ _ Hc) as (ids & Hids & _ & Hrows).
  rewrite Hid in Hids. injection Hids as <-.
  set (kept := deduplicate (drop_required output)) in *.
  assert (Hbound : Forall (fun i => (i < List.length (map fst raw))%nat)
                          (map fst kept)).
  { apply Forall_forall. intros i Hi. apply in_map_iff in Hi.
    destruct Hi as ([j r] & <- & Hx). apply Hin in Hx.
    destruct (Hrows j r Hx) as (Hj & _). unfold date_column in Hj.
    rewrite (series_of_length _ _ _ Hcols Hlen) in Hj.
    now rewrite length_map. }
  assert (Hids : map raw_id (reset_index kept)
                 = map (fun i => nth i (map fst raw) NA) (map fst kept)).
  { unfold reset_index. rewrite !map_map. apply map_ext_in.
    intros [j r] Hx. cbn [fst snd]. apply Hin in Hx.
    destruct (Hrows j r Hx) as (_ & _ & _ & Hraw). exact Hraw. }
  cbn [rows]. split; [|split].
  - assert (Hle : (List.length (map fst kept)
                   <= List.length (seq 0 (List.length raw)))%nat).
    { apply NoDup_incl_length; [exact Hnodup|].
      intros i Hi. apply in_seq.
      pose proof (proj1 (Forall_forall _ _) Hbound i Hi) as Hlt.
      cbv beta in Hlt. rewrite length_map in Hlt.
      split; [apply Nat.le_0_l|exact Hlt]. }
    rewrite length_seq, length_map in Hle.
    unfold reset_index. rewrite length_map. exact Hle.
  - rewrite Hids. intros v Hv. apply in_map_iff in Hv.
    destruct Hv as (i & <- & Hi).
    apply nth_In. exact (proj1 (Forall_forall _ _) Hbound i Hi).
  - intros Hnd. rewrite Hids. now apply NoDup_map_nth.
Qed.

Lemma transform_keeps_lineage_witness :
  exists out,
    @transform reference 0%Z (_load_raw_dataframe observed_twice) = Ok out
    /\ (List.length (rows out) <= 2)%nat
    /\ incl (map raw_id (rows out)) [Int 1; Int 2]
    /\ (NoDup [Int 1; Int 2] -> NoDup (map raw_id (rows out))).
Proof.
  eexists. split; [vm_compute; reflexivity|].
  apply (@transform_keeps_lineage reference reference_contract 0%Z
           observed_twice).
  vm_compute. reflexivity.
Defined.

Lemma coerce_ingested_at {L : Library} (utcnow : Z) (df : DataFrame)
    (output : list Indexed) (i : nat) (r : Row) :
  coerce utcnow df = Ok output -> In (i, r) output ->
  ingested_at r
  = cell None i
      match _coalesce_columns df ["ingested_at"] (Some utcnow) with
      | inl s => inl (to_datetime s)
      | inr now => inr (Some now)
      end.
Proof.
  unfold coerce. cbv zeta.
  destruct (lookup "raw_id" df) as [ids|]; [|discriminate].
  intros H Hin.
  apply (f_equal (fun r => match r with Ok o => o | Raise _ => [] end)) in H.
  subst output. apply in_map_iff in Hin. destruct Hin as (j & Hj & _).
  apply (f_equal snd) in Hj as Hr. apply (f_equal fst) in Hj.
  cbn [fst snd] in Hj, Hr. subst j r. reflexivity.
Qed.

Lemma coalesce_default {D : Type} (df : DataFrame) (aliases : list string)
    (d : D) :
  first_qualifying df aliases = None ->
  _coalesce_columns df aliases (Some d) = inr d.
Proof.
  intros H. rewrite coalesce_reconcile. unfold reconcile. now rewrite H.
Qed.

(** X5: a default stands for a column as a whole.  When no alias of the
    currency (of the source, of [ingested_at]) is a column holding a value,
    every row [transform] returns has the currency "USD" (the source
    "FAOSTAT", the time of the run as [ingested_at]). *)
Theorem defaults_fill_missing_columns {L : Library} {C : Contract L}
    (utcnow : Z) (df : DataFrame) (out : Table) :
  empty df = false ->
  transform utcnow df = Ok out ->
  (first_qualifying df ["price_currency"; "unit"; "Unit"] = None ->
   Forall (fun r => price_currency r = Str "USD") (rows out))
  /\ (first_qualifying df ["source_name"; "Source"] = None ->
      Forall (fun r => source_name r = Str "FAOSTAT") (rows out))
  /\ (first_qualifying df ["ingested_at"] = None ->
      Forall (fun r => ingested_at r = Some utcnow) (rows out)).
Proof.
  intros Hne Ht.
  destruct (transform_cases _ _ _ Ht) as [[He _]|[_ (output & Hc & ->)]];
    [congruence|].
  assert (Hrow : forall r, In r (reset_index (deduplicate (drop_required output)))
                           -> exists i, In (i, r) output).
  { intros r Hr. unfold reset_index in Hr. apply in_map_iff in Hr.
    destruct Hr as ([i r'] & <- & Hx). exists i.
    now apply deduplicated_rows_present in Hx. }
  cbn [rows].
  repeat split; intros Hq; apply Forall_forall; intros r Hr;
    destruct (Hrow r Hr) as (i & Hin).
  - destruct (Claims.coerce_objects _ _ _ _ _ Hc Hin) as (_ & _ & _ & -> & _).
    now rewrite (coalesce_default _ _ _ Hq).
  - destruct (Claims.coerce_objects _ _ _ _ _ Hc Hin) as (_ & _ & _ & _ & ->).
    now rewrite (coalesce_default _ _ _ Hq).
  - rewrite (coerce_ingested_at _ _ _ _ _ Hc Hin).
    now rewrite (coalesce_default _ _ _ Hq).
Qed.

Lemma defaults_fill_missing_columns_witness :
  exists out,
    @transform reference 5%Z (_load_raw_dataframe observed_together) = Ok out
    /\ Forall (fun r => price_currency r = Str "USD") (rows out)
    /\ Forall (fun r => source_name r = Str "FAOSTAT") (rows out)
    /\ Forall (fun r => ingested_at r = Some 5%Z) (rows out).
Proof.
  eexists. split; [vm_compute; reflexivity|].
  destruct (@defaults_fill_missing_columns reference reference_contract 5%Z
              (_load_raw_dataframe observed_together) _ eq_refl eq_refl)
    as (H1 & H2 & H3).
  split; [exact (H1 eq_refl)|]. split; [exact (H2 eq_refl)|exact (H3 eq_refl)].
Defined.

(** ** load and run *)






(** X7: for a raw table whose ids are integers and of which [transform] keeps
    some row, validation passes and [load] replaces the canonical table by
    the frame: it sends, in this order, the creation of the table if absent,
    its truncation, one insert binding one record per row of the frame (its
    [price_date] narrowed to the day) and the upsert of the metadata with the
    number of rows, which is also what [run] reports. *)
Theorem run_replaces_canonical_table {L : Library} {C : Contract L}
    (utcnow : Z) (raw_df : list RawRecord) (t : Table) :
  Forall (fun r => exists z, fst r = Int z) raw_df ->
  transform utcnow (_load_raw_dataframe raw_df) = Ok t ->
  rows t <> [] ->
  run utcnow raw_df = Ok (List.length (rows t))
  /\ Warehouse.run_statements utcnow raw_df
     = Ok [ Warehouse.create_table_if_not_exists;
            Warehouse.truncate_table;
            Warehouse.insert_into_commodity_prices
              (map Warehouse.to_dict (rows t));
            Warehouse.upsert_dataset_metadata "commodity_prices"
              (List.length (rows t)) "Generated by etl.commodity_prices_clean" ].
Proof.
  intros Hids Ht Hrows.
  assert (Hne : raw_df <> []).
  { intros ->. injection Ht as <-. now apply Hrows. }
  destruct (transform_cases _ _ _ Ht) as [[_ ->]|[_ (output & Hc & Hout)]];
    [exfalso; apply Hrows; reflexivity|].
  pose proof (Claims.loaded_ids_integer _ _ _ Hne Hids Hc) as Hint.
  rewrite Forall_forall in Hint.
  assert (Hv : validate t = Ok t).
  { subst t. apply validate_ok; apply Forall_forall; intros r Hr;
      apply in_map_iff in Hr; destruct Hr as (ir & <- & Hir);
      apply deduplicated_rows_present in Hir; destruct Hir as [Hin Hp];
      [exact Hp|now apply Hint]. }
  assert (Hn : table_empty t = false).
  { subst t. unfold table_empty. cbn [labels rows canonical_columns].
    cbn [rows] in Hrows.
    destruct (reset_index (deduplicate (drop_required output)));
      [now elim Hrows|reflexivity]. }
  unfold run, Warehouse.run_statements, load, Warehouse.load_statements.
  rewrite Ht. cbn [bind]. rewrite Hv. cbn [bind]. rewrite Hn. split; reflexivity.
Qed.

Lemma run_replaces_canonical_table_witness :
  exists t,
    @transform reference 0%Z (_load_raw_dataframe observed_twice) = Ok t
    /\ @run reference 0%Z observed_twice = Ok (List.length (rows t))
    /\ @Warehouse.run_statements reference 0%Z observed_twice
       = Ok [ Warehouse.create_table_if_not_exists;
              Warehouse.truncate_table;
              Warehouse.insert_into_commodity_prices
                (map Warehouse.to_dict (rows t));
              Warehouse.upsert_dataset_metadata "commodity_prices"
                (List.length (rows t))
                "Generated by etl.commodity_prices_clean" ].
Proof.
  eexists. split; [vm_compute; reflexivity|].
  apply (@run_replaces_canonical_table reference reference_contract 0%Z
           observed_twice).
  - repeat constructor; eexists; reflexivity.
  - vm_compute. reflexivity.
  - discriminate.
Defined.

End Extras.

(** * Properties of the ingestion pipeline *)

Module IngestFacts.
Import Pandas Clean Spec Samples PandasLaws Properties Pipeline.
Import Ingest IngestSamples.

Lemma lookup_None (k : string) (df : DataFrame) :
  lookup k df = None <-> ~ In k (columns df).
Proof.
  induction df as [|[c s] rest IH]; simpl; [tauto|].
  destruct (String.eqb k c) eqn:E.
  - apply String.eqb_eq in E. subst c. split; [discriminate|]. tauto.
  - apply String.eqb_neq in E. rewrite IH. split; [|tauto].
    intros H [Hc|Hc]; [congruence|tauto].
Qed.

(** What the mapping does to a label. *)
Lemma renamed_cases (c : string) :
  (c = "time" /\ renamed column_mapping c = "price_year")
  \/ (c = "timeperiod" /\ renamed column_mapping c = "price_year")
  \/ (c = "value" /\ renamed column_mapping c = "price_value")
  \/ (c = "item_code" /\ renamed column_mapping c = "commodity_id")
  \/ (c <> "time" /\ c <> "timeperiod" /\ c <> "value" /\ c <> "item_code"
      /\ renamed column_mapping c = c).
Proof.
  unfold renamed, column_mapping. cbn [find fst snd].
  destruct (String.eqb c "time") eqn:E1;
    [apply String.eqb_eq in E1; tauto|].
  destruct (String.eqb c "timeperiod") eqn:E2;
    [apply String.eqb_eq in E2; tauto|].
  destruct (String.eqb c "value") eqn:E3;
    [apply String.eqb_eq in E3; tauto|].
  destruct (String.eqb c "item_code") eqn:E4;
    [apply String.eqb_eq in E4; tauto|].
  apply String.eqb_neq in E1, E2, E3, E4. tauto.
Qed.

Lemma columns_rename (mapping : list (string * string)) (df : DataFrame) :
  columns (rename mapping df) = map (renamed mapping) (columns df).
Proof. unfold columns, rename. now rewrite !map_map. Qed.

Lemma in_existsb_eqb (c : string) (l : list string) :
  existsb (String.eqb c) l = true <-> In c l.
Proof.
  rewrite existsb_exists. split.
  - intros (x & Hx & E). apply String.eqb_eq in E. now subst.
  - intros H. exists c. split; [exact H|apply String.eqb_refl].
Qed.

Lemma renamed_price_value (df : DataFrame) :
  In "price_value" (map (renamed column_mapping) (columns df))
  <-> In "price_value" (columns df) \/ In "value" (columns df).
Proof.
  rewrite in_map_iff. split.
  - intros (c & Hc & Hin).
    destruct (renamed_cases c)
      as [[-> E]|[[-> E]|[[-> E]|[[-> E]|(_ & _ & _ & _ & E)]]]];
      rewrite E in Hc; try discriminate; [now right|subst c; now left].
  - intros [H|H]; [exists "price_value"|exists "value"]; split; auto.
Qed.

Lemma normalize_done (now : Z) (df : DataFrame) :
  In "price_value" (map (renamed column_mapping) (columns df)) ->
  normalize_dataframe now df
  = Done (assign "ingested_at" (datetime now) (lifted (rename column_mapping df))).
Proof.
  intros H. unfold normalize_dataframe. cbn [find].
  rewrite columns_rename.
  rewrite (proj2 (in_existsb_eqb _ _) H). reflexivity.
Qed.

Lemma normalize_failed (now : Z) (df : DataFrame) :
  ~ In "price_value" (map (renamed column_mapping) (columns df)) ->
  normalize_dataframe now df = Failed "Required column 'price_value' missing".
Proof.
  intros H. unfold normalize_dataframe. cbn [find].
  rewrite columns_rename.
  destruct (existsb (String.eqb "price_value")
              (map (renamed column_mapping) (columns df))) eqn:E;
    [apply in_existsb_eqb in E; contradiction|reflexivity].
Qed.

(** X8: [normalize_dataframe] raises exactly when the frame has neither a
    column [price_value] nor a column [value], and then with the message
    "Required column 'price_value' missing"; the other required names of the
    pipeline are not checked. *)
Theorem normalize_requires_a_price_column (now : Z) (df : DataFrame) :
  (lookup "price_value" df = None /\ lookup "value" df = None ->
   normalize_dataframe now df = Failed "Required column 'price_value' missing")
  /\ (lookup "price_value" df <> None \/ lookup "value" df <> None ->
      exists f, normalize_dataframe now df = Done f).
Proof.
  split.
  - intros [H1 H2]. apply normalize_failed. rewrite renamed_price_value.
    rewrite lookup_None in H1, H2. tauto.
  - intros H. eexists. apply normalize_done. apply renamed_price_value.
    destruct H as [H|H]; [left|right].
    + destruct (in_dec string_dec "price_value" (columns df)) as [Hin|Hin];
        [exact Hin|apply lookup_None in Hin; contradiction].
    + destruct (in_dec string_dec "value" (columns df)) as [Hin|Hin];
        [exact Hin|apply lookup_None in Hin; contradiction].
Qed.

Lemma assign_labels (column : string) (value : Value) (df : Frame) :
  map fst (assign column value df)
  = if existsb (String.eqb column) (map fst df)
    then map fst df else map fst df ++ [column].
Proof.
  unfold assign.
  destruct (existsb (String.eqb column) (map fst df)).
  - rewrite map_map. apply map_ext. intros c.
    now destruct (String.eqb column (fst c)).
  - now rewrite map_app.
Qed.

Lemma assign_In (column : string) (value : Value) (df : Frame)
    (k : string) (s : list Value) :
  In (k, s) (assign column value df) ->
  (k = column /\ s = repeat value (frame_len df))
  \/ (k <> column /\ In (k, s) df).
Proof.
  unfold assign.
  destruct (existsb (String.eqb column) (map fst df)) eqn:Ex.
  - rewrite in_map_iff. intros ([c t] & E & Hin). cbn [fst] in E.
    destruct (String.eqb column c) eqn:Ec.
    + apply String.eqb_eq in Ec. injection E as <- <-. left. now split.
    + apply String.eqb_neq in Ec. injection E as <- <-. right.
      split; [congruence|exact Hin].
  - rewrite in_app_iff. intros [Hin|[E|[]]].
    + right. split; [|exact Hin]. intros ->.
      apply (in_map fst) in Hin. cbn [fst] in Hin.
      apply in_existsb_eqb in Hin. congruence.
    + injection E as <- <-. left. now split.
Qed.

Lemma assign_frame_len (column : string) (value : Value) (df : Frame) :
  frame_len (assign column value df) = frame_len df.
Proof.
  unfold assign.
  destruct (existsb (String.eqb column) (map fst df)).
  - destruct df as [|[c s] rest]; [reflexivity|]. cbn [map fst frame_len].
    destruct (String.eqb column c); [apply repeat_length|reflexivity].
  - destruct df as [|[c s] rest]; [reflexivity|]. reflexivity.
Qed.

Lemma lifted_frame_len (df : DataFrame) : frame_len (lifted df) = len df.
Proof. destruct df as [|[c s] rest]; [reflexivity|]. apply length_map. Qed.

Lemma lifted_labels (df : DataFrame) : map fst (lifted df) = columns df.
Proof. unfold lifted, columns. rewrite map_map. reflexivity. Qed.

Lemma normalize_inv (now : Z) (df : DataFrame) (f : Frame) :
  normalize_dataframe now df = Done f ->
  In "price_value" (map (renamed column_mapping) (columns df))
  /\ f = assign "ingested_at" (datetime now) (lifted (rename column_mapping df)).
Proof.
  intros H.
  destruct (in_dec string_dec "price_value"
              (map (renamed column_mapping) (columns df))) as [Hin|Hin].
  - split; [exact Hin|]. rewrite (normalize_done now df Hin) in H. congruence.
  - rewrite (normalize_failed now df Hin) in H. discriminate.
Qed.

Lemma normalized_labels (now : Z) (df : DataFrame) (f : Frame) (k : string) :
  normalize_dataframe now df = Done f ->
  In k (map fst f) ->
  k = "ingested_at" \/ exists c, In c (columns df) /\ k = renamed column_mapping c.
Proof.
  intros H Hk. apply normalize_inv in H as [_ ->].
  rewrite assign_labels, lifted_labels, columns_rename in Hk.
  destruct (existsb _ _).
  - right. apply in_map_iff in Hk as (c & E & Hc). eauto.
  - apply in_app_iff in Hk as [Hk|[E|[]]]; [|now left].
    right. apply in_map_iff in Hk as (c & E & Hc). eauto.
Qed.

(** The source names of the mapping are not labels of a normalized frame. *)
Lemma normalized_not_source_name (now : Z) (df : DataFrame) (f : Frame)
    (k : string) :
  normalize_dataframe now df = Done f ->
  In k ["time"; "timeperiod"; "value"; "item_code"] ->
  ~ In k (map fst f).
Proof.
  intros H Hk Hin.
  destruct (normalized_labels now df f k H Hin) as [->|(c & _ & E)].
  - cbn in Hk. intuition discriminate.
  - destruct (renamed_cases c)
      as [[-> R]|[[-> R]|[[-> R]|[[-> R]|(N1 & N2 & N3 & N4 & R)]]]];
      rewrite R in E; subst k; cbn in Hk;
        try solve [intuition discriminate];
        intuition congruence.
Qed.

Lemma normalized_frame_len (now : Z) (df : DataFrame) (f : Frame) :
  normalize_dataframe now df = Done f -> frame_len f = len df.
Proof.
  intros H. apply normalize_inv in H as [_ ->].
  rewrite assign_frame_len, lifted_frame_len.
  destruct df as [|[c s] rest]; reflexivity.
Qed.

(** X9: the frame [normalize_dataframe] returns has the rows of its argument
    (same number, the cells of every column that keeps its role unchanged),
    the labels of the argument renamed by the mapping, followed by
    [ingested_at] when it was not one of them, a column [price_value], and
    the one clock reading in every cell of every column [ingested_at],
    whatever the argument had there.  None of the labels [time],
    [timeperiod], [value] and [item_code] is left. *)
Theorem normalize_dataframe_result (now : Z) (df : DataFrame) (f : Frame) :
  normalize_dataframe now df = Done f ->
  frame_len f = len df
  /\ map fst f
     = (let renamed_labels := map (renamed column_mapping) (columns df) in
        if existsb (String.eqb "ingested_at") renamed_labels
        then renamed_labels else renamed_labels ++ ["ingested_at"])
  /\ In "price_value" (map fst f)
  /\ In "ingested_at" (map fst f)
  /\ (forall k, In k ["time"; "timeperiod"; "value"; "item_code"] ->
                ~ In k (map fst f))
  /\ (forall s, In ("ingested_at", s) f -> s = repeat (datetime now) (len df))
  /\ (forall k s, In (k, s) f -> k <> "ingested_at" ->
        exists c s0, In (c, s0) df /\ k = renamed column_mapping c
                     /\ s = map plain s0).
Proof.
  intros H. pose proof (normalize_inv now df f H) as [Hpv Hf].
  assert (Hlen : frame_len (lifted (rename column_mapping df)) = len df).
  { rewrite lifted_frame_len. destruct df as [|[c s] rest]; reflexivity. }
  assert (Hlabels : map fst f
     = (let renamed_labels := map (renamed column_mapping) (columns df) in
        if existsb (String.eqb "ingested_at") renamed_labels
        then renamed_labels else renamed_labels ++ ["ingested_at"])).
  { rewrite Hf, assign_labels, lifted_labels, columns_rename. reflexivity. }
  split; [rewrite Hf, assign_frame_len; exact Hlen|].
  split; [exact Hlabels|].
  split.
  { rewrite Hlabels. cbv zeta. destruct (existsb _ _); [exact Hpv|].
    apply in_app_iff. now left. }
  split.
  { rewrite Hlabels. cbv zeta.
    destruct (existsb _ _) eqn:E; [now apply in_existsb_eqb|].
    apply in_app_iff. right. now left. }
  split; [intros k Hk; exact (normalized_not_source_name now df f k H Hk)|].
  split.
  - intros s Hs. rewrite Hf in Hs. apply assign_In in Hs as [[_ ->]|[Hne _]];
      [now rewrite Hlen|congruence].
  - intros k s Hs Hne. rewrite Hf in Hs.
    apply assign_In in Hs as [[-> _]|[_ Hin]]; [congruence|].
    unfold lifted, rename in Hin. rewrite map_map in Hin.
    apply in_map_iff in Hin as ([c s0] & E & Hin). cbn [fst snd] in E.
    injection E as <- <-. exists c, s0. auto.
Qed.

Lemma normalize_dataframe_result_witness :
  exists f,
    normalize_dataframe 1700000000000000000 yearly_prices = Done f
    /\ map fst f = ["area"; "commodity_id"; "price_year"; "price_value";
                    "ingested_at"]
    /\ forall s, In ("ingested_at", s) f ->
                 s = repeat (datetime 1700000000000000000) 2.
Proof.
  eexists. split; [vm_compute; reflexivity|].
  destruct (normalize_dataframe_result 1700000000000000000 yearly_prices _
              eq_refl) as (_ & Hl & _ & _ & _ & Hs & _).
  split; [exact Hl|exact Hs].
Defined.

(** ** persist_raw *)

Lemma sequence_map_Done {A B} (f : A -> outcome B) (g : A -> B) (l : list A) :
  (forall x, In x l -> f x = Done (g x)) -> sequence (map f l) = Done (map g l).
Proof.
  induction l as [|a l IH]; simpl; intros H; [reflexivity|].
  rewrite (H a) by now left. rewrite IH by (intros; apply H; now right).
  reflexivity.
Qed.

Lemma combine_map_map {X A B} (g : X -> A) (h : X -> B) (l : list X) :
  combine (map g l) (map h l) = map (fun x => (g x, h x)) l.
Proof. induction l as [|x l IH]; simpl; [reflexivity|now rewrite IH]. Qed.

Lemma iterrows_length (f : Frame) : List.length (iterrows f) = frame_len f.
Proof. unfold iterrows. now rewrite length_map, length_seq. Qed.

Lemma is_unique_NoDup (l : list string) : is_unique l = true <-> NoDup l.
Proof.
  induction l as [|c l IH]; simpl; [split; [constructor|reflexivity]|].
  rewrite andb_true_iff, negb_true_iff, IH. split.
  - intros [Hc Hl]. constructor; [|exact Hl]. intros Hin.
    apply in_existsb_eqb in Hin. congruence.
  - intros H. inversion H as [|? ? Hc Hl]; subst. split; [|exact Hl].
    destruct (existsb (String.eqb c) l) eqn:E; [|reflexivity].
    apply in_existsb_eqb in E. contradiction.
Qed.

(** The ways [persist_raw] ends. *)
Lemma persist_raw_cases (dp : Q -> Q) (ex : outcome unit) (f : Frame)
    (src : string) (db : Database) :
  persist_raw dp ex f src db
  = match frame_len f with
    | O => match ex with
           | Done _ => (Done 0%nat, db)
           | Failed message => (Failed message, db)
           end
    | S _ =>
        if is_unique (map fst f)
        then (Done (frame_len f),
              {| faostat_prices :=
                   faostat_prices db
                   ++ map (fun row => combine (map fst f) (map (json_value dp) row))
                          (iterrows f);
                 ingestion_runs := ingestion_runs db |})
        else (Failed "Series index must be unique for orient='index'", db)
    end.
Proof.
  unfold persist_raw, iterrows. destruct (frame_len f) as [|n] eqn:En.
  - cbn. reflexivity.
  - unfold to_json. destruct (is_unique (map fst f)).
    + rewrite (sequence_map_Done _
                 (fun row => combine (map fst f) (map (json_value dp) row)))
        by reflexivity.
      cbn [seq map]. reflexivity.
    + cbn [seq map sequence]. reflexivity.
Qed.

Lemma persist_raw_inv (dp : Q -> Q) (ex : outcome unit) (f : Frame)
    (src : string) (db db' : Database) (r : outcome nat) :
  persist_raw dp ex f src db = (r, db') ->
  ingestion_runs db' = ingestion_runs db
  /\ exists new,
       faostat_prices db' = faostat_prices db ++ new
       /\ Forall (fun p => map fst p = map fst f) new
       /\ match r with
          | Done n => n = frame_len f /\ List.length new = n
          | Failed _ => new = []
          end.
Proof.
  rewrite persist_raw_cases. destruct (frame_len f) as [|n] eqn:En.
  - destruct ex; intros E; injection E as <- <-; (split; [reflexivity|]);
      exists []; rewrite app_nil_r; repeat split; constructor.
  - destruct (is_unique (map fst f)); intros E; injection E as <- <-;
      (split; [reflexivity|]).
    + eexists. split; [reflexivity|]. split.
      * apply Forall_forall. intros p Hp.
        apply in_map_iff in Hp as (row & <- & Hrow).
        unfold iterrows in Hrow. apply in_map_iff in Hrow as (i & <- & _).
        rewrite map_map, combine_map_map, map_map. reflexivity.
      * split; [reflexivity|]. now rewrite length_map, iterrows_length.
    + exists []. rewrite app_nil_r. repeat split; constructor.
Qed.

Lemma normalized_NoDup (now : Z) (df : DataFrame) (f : Frame) :
  normalize_dataframe now df = Done f ->
  NoDup (map fst f) <-> NoDup (map (renamed column_mapping) (columns df)).
Proof.
  intros H. apply normalize_inv in H as [_ ->].
  rewrite assign_labels, lifted_labels, columns_rename.
  destruct (existsb _ _) eqn:E; [tauto|]. split.
  - apply NoDup_app_remove_r.
  - intros Hn. apply (Permutation_NoDup (Permutation_cons_append _ _)).
    constructor; [|exact Hn]. intros Hin. apply in_existsb_eqb in Hin.
    congruence.
Qed.

Lemma two_periods_collide (df : DataFrame) :
  In "time" (columns df) -> In "timeperiod" (columns df) ->
  ~ NoDup (map (renamed column_mapping) (columns df)).
Proof.
  intros Ht Hp Hn. apply in_split in Ht as (l1 & l2 & E). rewrite E in Hp, Hn.
  rewrite map_app in Hn. cbn [map] in Hn. apply NoDup_remove_2 in Hn.
  apply Hn. rewrite <- map_app.
  change (renamed column_mapping "time")
    with (renamed column_mapping "timeperiod").
  apply in_map. apply in_app_iff in Hp. apply in_app_iff.
  destruct Hp as [Hp|[Hp|Hp]]; [now left|discriminate|now right].
Qed.

(** X10: of a normalized frame with rows, [persist_raw] stores one payload a
    row, each with the labels of the frame as its keys, and returns the number
    of rows, when the renamed labels of the source are distinct; otherwise
    [to_json] raises on the first row and nothing is stored.  A source with
    both a column [time] and a column [timeperiod] is such a case: both become
    [price_year]. *)
Theorem persist_raw_needs_distinct_labels (dp : Q -> Q) (ex : outcome unit)
    (now : Z) (df : DataFrame) (f : Frame) (src : string) (db : Database) :
  normalize_dataframe now df = Done f ->
  (0 < len df)%nat ->
  (NoDup (map (renamed column_mapping) (columns df)) ->
   exists payloads,
     persist_raw dp ex f src db
     = (Done (len df),
        {| faostat_prices := faostat_prices db ++ payloads;
           ingestion_runs := ingestion_runs db |})
     /\ List.length payloads = len df
     /\ Forall (fun p => map fst p = map fst f) payloads)
  /\ (~ NoDup (map (renamed column_mapping) (columns df)) ->
      persist_raw dp ex f src db
      = (Failed "Series index must be unique for orient='index'", db))
  /\ (In "time" (columns df) -> In "timeperiod" (columns df) ->
      ~ NoDup (map (renamed column_mapping) (columns df))).
Proof.
  intros H Hrows.
  pose proof (normalized_NoDup now df f H) as Hnd.
  pose proof (normalized_frame_len now df f H) as Hlen.
  split; [|split].
  - intros Hn. apply Hnd, is_unique_NoDup in Hn.
    destruct (persist_raw dp ex f src db) as [r db'] eqn:E.
    destruct (persist_raw_inv dp ex f src db db' r E)
      as (Hruns & new & Hnew & Hkeys & Hr).
    rewrite persist_raw_cases, Hn in E.
    destruct (frame_len f) as [|n] eqn:En; [lia|].
    injection E as <- <-. eexists. split; [|split].
    + rewrite <- Hlen. reflexivity.
    + rewrite length_map, iterrows_length. congruence.
    + destruct Hr as [_ Hl]. 
      cbn [faostat_prices] in Hnew. apply app_inv_head in Hnew.
      rewrite Hnew. exact Hkeys.
  - intros Hn. rewrite persist_raw_cases.
    destruct (frame_len f) as [|n] eqn:En; [lia|].
    destruct (is_unique (map fst f)) eqn:U; [|reflexivity].
    apply is_unique_NoDup, Hnd in U. contradiction.
  - apply two_periods_collide.
Qed.

Lemma persist_raw_needs_distinct_labels_witness :
  exists f,
    normalize_dataframe 0 two_period_names = Done f
    /\ persist_raw exact (Done tt) f "faostat_prices" empty_database
       = (Failed "Series index must be unique for orient='index'",
          empty_database).
Proof.
  eexists. split; [vm_compute; reflexivity|].
  destruct (persist_raw_needs_distinct_labels exact (Done tt) 0
              two_period_names _ "faostat_prices" empty_database eq_refl)
    as (_ & Hfail & Hdup); [vm_compute; lia|].
  apply Hfail. apply Hdup; vm_compute; tauto.
Defined.

(** ** persist_raw, then _load_raw_dataframe *)



Lemma has_key_In (k : string) (r : RawRecord) :
  has_key k r = true <-> In k (map fst (snd r)).
Proof.
  unfold has_key. rewrite existsb_exists, in_map_iff. split.
  - intros (kv & Hin & E). apply String.eqb_eq in E. eauto.
  - intros (kv & E & Hin). exists kv. split; [exact Hin|].
    rewrite E. apply String.eqb_refl.
Qed.






(** ** ingestion, then the transformation *)




(** ** ingest *)

(** X13: what a run of [ingest] leaves behind.  Raw records are only ever
    appended.  When [ingest] returns, one run is logged, with the status
    "success" and the number of records this run appended.  When it raises,
    nothing was appended, and either one run is logged, with the status
    "failed", 0 rows and the text of the exception, or none is: that is when
    the sample file could not be read or the frame has no price column, both
    of which happen before anything is logged. *)
Theorem ingest_store_and_log (dp : Q -> Q) (ex : outcome unit) (w : World)
    (use_sample : bool) (db : Database) :
  let result := fst (ingest dp ex w use_sample db) in
  let db' := snd (ingest dp ex w use_sample db) in
  exists new runs,
    faostat_prices db' = faostat_prices db ++ new
    /\ ingestion_runs db' = ingestion_runs db ++ runs
    /\ match result with
       | Done _ =>
           runs = [ {| source_name := "faostat_prices";
                       run_started_at := utcnow w 1;
                       run_finished_at := utcnow w 2;
                       status := "success";
                       rows_ingested := List.length new;
                       error_message := None |} ]
       | Failed message =>
           new = []
           /\ (runs = [ {| source_name := "faostat_prices";
                           run_started_at := utcnow w 1;
                           run_finished_at := utcnow w 2;
                           status := "failed";
                           rows_ingested := 0;
                           error_message := Some message |} ]
               \/ (runs = []
                   /\ (read_csv w sample_path = Failed message
                       \/ message = "Required column 'price_value' missing")))
       end.
Proof.
  cbv zeta. unfold ingest.
  set (first := if use_sample then _ else _).
  assert (Hframe : forall message,
            match first with
            | Done df => Done df
            | Failed _ => load_sample_csv w sample_path
            end = Failed message ->
            read_csv w sample_path = Failed message).
  { intros message. destruct first; [discriminate|]. intros E. exact E. }
  destruct (match first with
            | Done df => Done df
            | Failed _ => load_sample_csv w sample_path
            end) as [df|message] eqn:Ef.
  - destruct (normalize_dataframe (utcnow w 0) df) as [f|message] eqn:En.
    + destruct (persist_raw dp ex f "faostat_prices" db) as [[n|message] db1]
        eqn:Ep;
        destruct (persist_raw_inv dp ex f _ db db1 _ Ep)
          as (Hruns & new & Hnew & _ & Hr);
        exists new; eexists; cbn [fst snd record_run faostat_prices ingestion_runs];
        (split; [exact Hnew|]); rewrite Hruns; (split; [reflexivity|]).
      * destruct Hr as [_ ->]. reflexivity.
      * split; [exact Hr|]. now left.
    + exists [], []. cbn [fst snd]. rewrite !app_nil_r.
      split; [reflexivity|]. split; [reflexivity|]. split; [reflexivity|].
      right. split; [reflexivity|]. right.
      destruct (in_dec string_dec "price_value"
                  (map (renamed column_mapping) (columns df))) as [Hin|Hin].
      * rewrite (normalize_done _ _ Hin) in En. discriminate.
      * rewrite (normalize_failed _ _ Hin) in En. congruence.
  - exists [], []. cbn [fst snd]. rewrite !app_nil_r.
    split; [reflexivity|]. split; [reflexivity|]. split; [reflexivity|].
    right. split; [reflexivity|]. left. now apply Hframe.
Qed.

(** X14: a failure of the API is never a failure of [ingest].  When the
    request raises, or the response has no data rows, [ingest] does exactly
    what it does with [use_sample] set; an error of [normalize_dataframe] has
    no such fallback. *)
Theorem ingest_falls_back_to_sample (dp : Q -> Q) (ex : outcome unit)
    (w : World) (db : Database) :
  (forall url params,
     requests_get w url params = Done None
     \/ requests_get w url params = Done (Some [])
     \/ exists message, requests_get w url params = Failed message) ->
  ingest dp ex w false db = ingest dp ex w true db.
Proof.
  intros H. unfold ingest, fetch_faostat_data.
  match goal with
  | |- context [requests_get w ?url ?params] =>
      destruct (H url params) as [E|[E|[message E]]]; rewrite E
  end;
    destruct (load_sample_csv w sample_path); reflexivity.
Qed.

Lemma ingest_falls_back_to_sample_witness :
  ingest exact (Done tt) (offline yearly_prices) false empty_database
  = ingest exact (Done tt) (offline yearly_prices) true empty_database
  /\ fst (ingest exact (Done tt) (offline yearly_prices) false empty_database)
     = Done tt
  /\ ingest exact (Done tt) (offline without_price) false empty_database
     = (Failed "Required column 'price_value' missing", empty_database).
Proof.
  split; [|split; vm_compute; reflexivity].
  apply (ingest_falls_back_to_sample exact (Done tt) (offline yearly_prices)
           empty_database).
  intros url params. right. right. exists "Connection refused". reflexivity.
Defined.

(** ** fetch_faostat_data *)

(** X15: a frame [fetch_faostat_data] returns has one row for every record
    of the response, at least one, and the column [source_name] holds
    "FAOSTAT" in every row, whatever the records hold under that key.  The
    request asks for the years from [year_start] to [year_end], bounds
    included. *)
Theorem fetch_faostat_data_frame (w : World)
    (dataset_url area_code item_code element_code : string)
    (year_start year_end : Z) (df : DataFrame) :
  fetch_faostat_data w dataset_url area_code item_code element_code
    year_start year_end = Done df ->
  exists data,
    requests_get w dataset_url
      [ ("area_code", area_code); ("item_code", item_code);
        ("element_code", element_code);
        ("time_year",
         String.concat "," (map str_of_Z (year_range year_start year_end))) ]
    = Done (Some data)
    /\ len df = List.length data
    /\ (0 < len df)%nat
    /\ empty df = false
    /\ lookup "source_name" df = Some (repeat (Str "FAOSTAT") (len df))
    /\ (forall k, k <> "source_name" ->
          lookup k df = lookup k (json_normalize data))
    /\ (forall y, In y (year_range year_start year_end)
                  <-> (year_start <= y <= year_end)%Z).
Proof.
  unfold fetch_faostat_data. intros H.
  destruct (requests_get w dataset_url _) as [[data|]|message] eqn:E;
    try discriminate.
  destruct data as [|r rest] eqn:Ed; [discriminate|]. rewrite <- Ed in *.
  injection H as <-. exists data. split; [reflexivity|].
  assert (Hlen : len (setitem "source_name"
                        (repeat (Str "FAOSTAT") (List.length data))
                        (json_normalize data)) = List.length data).
  { apply columns_len; [apply setitem_not_nil|].
    apply setitem_lengths; [apply repeat_length|apply json_normalize_lengths]. }
  split; [exact Hlen|].
  assert (Hpos : (0 < List.length data)%nat) by (rewrite Ed; cbn; lia).
  split; [rewrite Hlen; exact Hpos|]. split.
  { unfold empty.
    destruct (setitem "source_name" _ _) as [|c cols] eqn:Es;
      [now apply setitem_not_nil in Es|].
    rewrite Hlen. apply Nat.eqb_neq. lia. }
  split; [rewrite Hlen; apply contains_setitem|]. split.
  - intros k Hk. rewrite Extras.lookup_setitem.
    apply String.eqb_neq in Hk. now rewrite Hk.
  - intros y. unfold year_range. rewrite in_map_iff. split.
    + intros (k & <- & Hk). apply in_seq in Hk. lia.
    + intros Hy. exists (Z.to_nat (y - year_start)). split; [lia|].
      apply in_seq. lia.
Qed.

Lemma fetch_faostat_data_frame_witness :
  exists df,
    fetch_faostat_data
      (online [[("time", Int 2021); ("source_name", Str "FAO")]] yearly_prices)
      FAOSTAT_DEFAULT_ENDPOINT "41" "2514" "5532" 2020 2023 = Done df
    /\ lookup "source_name" df = Some [Str "FAOSTAT"]
    /\ (In 2023%Z (year_range 2020 2023) <-> (2020 <= 2023 <= 2023)%Z).
Proof.
  eexists. split; [vm_compute; reflexivity|].
  destruct (fetch_faostat_data_frame
              (online [[("time", Int 2021); ("source_name", Str "FAO")]]
                 yearly_prices)
              FAOSTAT_DEFAULT_ENDPOINT "41" "2514" "5532" 2020 2023 _ eq_refl)
    as (data & _ & _ & _ & _ & Hs & _ & Hy).
  split; [exact Hs|exact (Hy 2023%Z)].
Defined.

End IngestFacts.

(** * Properties of the dashboard *)

Module DashboardFacts.
Import Dashboard.

Lemma filter_all {A} (p : A -> bool) (l : list A) :
  (forall x, In x l -> p x = true) -> filter p l = l.
Proof.
  induction l as [|x l IH]; simpl; intros H; [reflexivity|].
  rewrite (H x) by now left. f_equal. apply IH. intros y Hy. apply H. now right.
Qed.

Lemma unique_In (l : list string) (x : string) : In x (unique l) <-> In x l.
Proof.
  induction l as [|y l IH]; simpl; [tauto|].
  rewrite filter_In, IH, negb_true_iff. split.
  - intros [H|[H _]]; auto.
  - intros [H|H]; [now left|].
    destruct (String.eqb y x) eqn:E; [apply String.eqb_eq in E; now left|].
    right. now split.
Qed.

Lemma max_date_bounds (a : Z) (l : list Z) :
  (a <= fold_right Z.max a l)%Z
  /\ (forall x, In x l -> (x <= fold_right Z.max a l)%Z)
  /\ In (fold_right Z.max a l) (a :: l).
Proof.
  induction l as [|y l (Ha & Hl & Hin)]; simpl.
  - split; [lia|]. split; [tauto|]. now left.
  - split; [lia|]. split.
    + intros x [<-|Hx]; [lia|]. specialize (Hl x Hx). lia.
    + destruct (Z.max_spec y (fold_right Z.max a l)) as [[_ ->]|[_ ->]].
      * destruct Hin as [Hin|Hin]; [now left|right; now right].
      * right. now left.
Qed.

Lemma min_date_bounds (a : Z) (l : list Z) :
  (fold_right Z.min a l <= a)%Z
  /\ (forall x, In x l -> (fold_right Z.min a l <= x)%Z).
Proof.
  induction l as [|y l (Ha & Hl)]; simpl.
  - split; [lia|tauto].
  - split; [lia|]. intros x [<-|Hx]; [lia|]. specialize (Hl x Hx). lia.
Qed.

Lemma filtered_incl (df : list Price) (s : Selection) (r : Price) :
  In r (filtered df s) -> In r df.
Proof.
  unfold filtered. intros H.
  assert (H3 : In r
    match selected_price_types s with
    | [] => if negb (String.eqb (selected_commodity s) "")
            then filter (fun r => String.eqb (fillna (commodity_name r))
                                             (selected_commodity s)) df
            else df
    | _ => filter (fun r => existsb (String.eqb (fillna (price_type r)))
                                    (selected_price_types s))
             (if negb (String.eqb (selected_commodity s) "")
              then filter (fun r => String.eqb (fillna (commodity_name r))
                                               (selected_commodity s)) df
              else df)
    end).
  { destruct (date_range s) as [|a [|b [|c l]]]; try exact H.
    apply filter_In in H. tauto. }
  assert (H2 : In r (if negb (String.eqb (selected_commodity s) "")
                     then filter (fun r => String.eqb (fillna (commodity_name r))
                                                      (selected_commodity s)) df
                     else df)).
  { destruct (selected_price_types s); [exact H3|].
    apply filter_In in H3. tauto. }
  destruct (negb _); [|exact H2]. apply filter_In in H2. tauto.
Qed.

Lemma filtered_sorted (df : list Price) (s : Selection) :
  StronglySorted (fun a b => (price_date a <= price_date b)%Z) df ->
  StronglySorted (fun a b => (price_date a <= price_date b)%Z) (filtered df s).
Proof.
  assert (Hf : forall (p : Price -> bool) l,
            StronglySorted (fun a b => (price_date a <= price_date b)%Z) l ->
            StronglySorted (fun a b => (price_date a <= price_date b)%Z)
                           (filter p l)).
  { intros p l. induction 1 as [|x l Hl IH Hx]; simpl; [constructor|].
    destruct (p x); [|exact IH]. constructor; [exact IH|].
    rewrite Forall_forall in *. intros y Hy. apply filter_In in Hy.
    apply Hx. tauto. }
  intros H. unfold filtered.
  destruct (date_range s) as [|a [|b [|c l]]];
    destruct (selected_price_types s);
    destruct (negb _); auto.
Qed.

(** The rows of the commodity selected. *)
Lemma filtered_default (first : Price) (rest : list Price) (commodity : string)
    (types : list string) :
  let df := first :: rest in
  (forall r, In r df -> In (fillna (price_type r)) types) ->
  filtered df (default_selection commodity types df)
  = if negb (String.eqb commodity "")
    then filter (fun r => String.eqb (fillna (commodity_name r)) commodity) df
    else df.
Proof.
  intros df Htypes. unfold filtered, default_selection.
  cbn [selected_commodity selected_price_types date_range].
  set (f1 := if negb (String.eqb commodity "") then _ else df).
  assert (H1 : forall r, In r f1 -> In r df).
  { intros r. unfold f1. destruct (negb _); [|tauto].
    intros H. apply filter_In in H. tauto. }
  assert (E2 : match types with
               | [] => f1
               | _ => filter (fun r => existsb (String.eqb (fillna (price_type r)))
                                               types) f1
               end = f1).
  { destruct types as [|t types']; [reflexivity|].
    apply filter_all. intros r Hr. apply existsb_exists.
    exists (fillna (price_type r)). split; [|apply String.eqb_refl].
    apply Htypes, H1, Hr. }
  rewrite E2.
  replace (match df with
           | [] => []
           | f :: _ => [min_date f df; max_date f df]
           end)
    with [min_date first df; max_date first df] by reflexivity.
  apply filter_all.
  intros r Hr. apply H1 in Hr. apply andb_true_iff. split; apply Z.leb_le.
  - apply (min_date_bounds (price_date first) (map price_date df)).
    now apply in_map.
  - apply (max_date_bounds (price_date first) (map price_date df)).
    now apply in_map.
Qed.

Lemma render_rows (df : list Price) (s : Selection) (first : Price)
    (rows : list Price) :
  df <> [] -> filtered df s = first :: rows ->
  render_dashboard df s
  = dashboard (max_date first (first :: rows))
      (map price_value
         (filter (fun r => Z.eqb (price_date r) (max_date first (first :: rows)))
                 (first :: rows)))
      (price_currency first) (first :: rows).
Proof.
  intros Hne E. unfold render_dashboard. destruct df as [|r0 rest]; [easy|].
  rewrite E. reflexivity.
Qed.

Lemma latest_prices_exist (first : Price) (rows : list Price) :
  map price_value
    (filter (fun r => Z.eqb (price_date r) (max_date first (first :: rows)))
            (first :: rows)) <> [].
Proof.
  destruct (max_date_bounds (price_date first)
              (map price_date (first :: rows))) as (_ & _ & Hin).
  fold (max_date first (first :: rows)) in Hin.
  assert (Hr : exists r, In r (first :: rows)
                         /\ price_date r = max_date first (first :: rows)).
  { destruct Hin as [E|Hin]; [exists first; split; [now left|exact E]|].
    apply in_map_iff in Hin as (r & E & Hr). eauto. }
  destruct Hr as (r & Hr & E). intros Hnil.
  apply map_eq_nil in Hnil.
  assert (Hin' : In r (filter (fun r => Z.eqb (price_date r)
                                 (max_date first (first :: rows)))
                              (first :: rows))).
  { apply filter_In. split; [exact Hr|]. now apply Z.eqb_eq. }
  rewrite Hnil in Hin'. exact Hin'.
Qed.



(** X17: the page never opens on "No data matches the current filters".
    For any commodity the selection box offers, with the widgets' defaults
    for the price types and the dates, the page shows a metric computed from
    at least one price, and lists the rows of that commodity, all of them
    and in the order of the frame. *)
Theorem offered_commodity_shows_data (df : list Price) (commodity : string)
    (types : list string) :
  In commodity (commodities df) ->
  (forall t, In t (price_types df) -> In t types) ->
  exists latest_date latest_prices currency rows,
    render_dashboard df (default_selection commodity types df)
    = dashboard latest_date latest_prices currency rows
    /\ latest_prices <> []
    /\ rows = if String.eqb commodity ""
              then df
              else filter (fun r => String.eqb (fillna (commodity_name r))
                                               commodity) df.
Proof.
  intros Hc Htypes. unfold commodities in Hc.
  apply (proj1 (unique_In _ _)) in Hc.
  apply in_map_iff in Hc as (r0 & Er0 & Hr0).
  destruct df as [|first rest]; [easy|]. set (df := first :: rest) in *.
  assert (Hd : filtered df (default_selection commodity types df)
               = if negb (String.eqb commodity "")
                 then filter (fun r => String.eqb (fillna (commodity_name r))
                                                  commodity) df
                 else df).
  { apply filtered_default. intros r Hr. apply Htypes. unfold price_types.
    apply unique_In. now apply (in_map (fun r => fillna (price_type r))). }
  assert (Hrows : filtered df (default_selection commodity types df) <> []).
  { rewrite Hd. destruct (String.eqb commodity ""); cbn [negb]; [easy|].
    intros E.
    assert (Hin : In r0 (filter (fun r => String.eqb (fillna (commodity_name r))
                                                      commodity) df)).
    { apply filter_In. split; [exact Hr0|]. rewrite Er0.
      apply String.eqb_refl. }
    rewrite E in Hin. exact Hin. }
  destruct (filtered df (default_selection commodity types df))
    as [|f rows] eqn:E; [easy|].
  do 4 eexists. split; [apply (render_rows df _ f rows); [easy|exact E]|].
  split; [apply latest_prices_exist|].
  rewrite Hd. destruct (String.eqb commodity ""); reflexivity.
Qed.

Lemma offered_commodity_shows_data_witness :
  exists latest_date latest_prices currency rows,
    render_dashboard DashboardSamples.coffee_prices
      (default_selection "Unknown" ["Unknown"; "Wholesale"]
         DashboardSamples.coffee_prices)
    = dashboard latest_date latest_prices currency rows
    /\ latest_prices <> []
    /\ List.length rows = 1%nat.
Proof.
  destruct (offered_commodity_shows_data DashboardSamples.coffee_prices
              "Unknown" ["Unknown"; "Wholesale"])
    as (d & ps & cur & rows & H & Hps & Hrows).
  - vm_compute. tauto.
  - intros t Ht. vm_compute in Ht. cbn. tauto.
  - exists d, ps, cur, rows. split; [exact H|]. split; [exact Hps|].
    rewrite Hrows. reflexivity.
Defined.

(** X18: the metric is of the latest date shown, its currency is not.  When
    the page shows the dashboard, its rows are the rows the filters leave,
    the date of the metric is the latest of their dates, and the prices
    averaged are the prices of the rows of that date, of which there is at
    least one.  The currency written after the average is the currency of the
    first row: for a frame in ascending order of date, as [load_prices] reads
    it, that is a row of the earliest date shown. *)
Theorem metric_is_of_the_latest_date (df : list Price) (s : Selection)
    (latest_date : Z) (latest_prices : list Q) (currency : option string)
    (rows : list Price) :
  render_dashboard df s = dashboard latest_date latest_prices currency rows ->
  rows = filtered df s
  /\ (forall r, In r rows -> (price_date r <= latest_date)%Z)
  /\ latest_prices
     = map price_value (filter (fun r => Z.eqb (price_date r) latest_date) rows)
  /\ latest_prices <> []
  /\ exists first,
       hd_error rows = Some first
       /\ currency = price_currency first
       /\ (StronglySorted (fun a b => (price_date a <= price_date b)%Z) df ->
           forall r, In r rows -> (price_date first <= price_date r)%Z).
Proof.
  unfold render_dashboard. destruct df as [|r0 rest]; [discriminate|].
  set (df := r0 :: rest) in *.
  destruct (filtered df s) as [|first rows'] eqn:E; [discriminate|].
  cbv zeta. intros H. injection H as <- <- <- <-.
  split; [reflexivity|]. split.
  { intros r Hr.
    apply (max_date_bounds (price_date first) (map price_date (first :: rows'))).
    now apply in_map. }
  split; [reflexivity|]. split; [apply latest_prices_exist|].
  exists first. split; [reflexivity|]. split; [reflexivity|].
  intros Hsorted r Hr. apply (filtered_sorted df s) in Hsorted.
  rewrite E in Hsorted. inversion Hsorted as [|? ? _ Hall]; subst.
  destruct Hr as [<-|Hr]; [lia|].
  rewrite Forall_forall in Hall. now apply Hall.
Qed.

Lemma metric_is_of_the_latest_date_witness :
  exists latest_prices rows,
    render_dashboard DashboardSamples.coffee_prices
      (default_selection "Coffee" [] DashboardSamples.coffee_prices)
    = dashboard 18993 latest_prices (Some "KES") rows
    /\ latest_prices <> []
    /\ option_map price_date (hd_error rows) = Some 18628%Z.
Proof.
  eexists. eexists. split; [vm_compute; reflexivity|].
  destruct (metric_is_of_the_latest_date DashboardSamples.coffee_prices
              (default_selection "Coffee" [] DashboardSamples.coffee_prices)
              _ _ _ _ eq_refl) as (_ & _ & _ & Hps & _).
  split; [exact Hps|reflexivity].
Defined.

End DashboardFacts.

